(** * Ecodrive API: emission estimator, threshold evaluator, weekly aggregator

    A shallow embedding of [src/main.py].  Python [float] is IEEE 754
    binary64, modelled by Rocq's primitive floats; [Optional[float]] is
    [option float]; a raised [HTTPException] is the left summand of a sum
    type; dictionaries with a fixed set of keys are records and the day
    buckets of the weekly report are a [gmap] keyed by the day string. *)

From Stdlib Require Import ZArith Floats Uint63 Ascii String DecimalString DecimalZ.
From stdpp Require Import gmap strings list fin_maps.

(** A decimal literal denotes the nearest binary64 value, as it does in
    Python. *)
Set Warnings "-inexact-float".

Local Open Scope Z_scope.

(** ** Python's numeric primitives on [float] *)

Module Py.

(** [bool(x)] for a float: every value but the two zeros is truthy
    (NaN included). *)
Definition truthy (x : float) : bool := negb (PrimFloat.eqb x 0%float).

(** [x or d] where both are floats. *)
Definition or_else (x : option float) (d : float) : float :=
  match x with
  | Some v => if truthy v then v else d
  | None => d
  end.

(** [max(a, b)]: the first argument is kept unless the second compares
    strictly greater. *)
Definition max (a b : float) : float := if PrimFloat.ltb a b then b else a.

(** Nearest integer to [n / d], ties to even ([0 <= n], [0 < d]). *)
Definition div_half_even (n d : Z) : Z :=
  let q := n / d in
  match 2 * (n mod d) ?= d with
  | Lt => q
  | Gt => q + 1
  | Eq => if Z.even q then q else q + 1
  end.

(** The decimal rounding of [|x| = m * 2^e] to [ndigits] places, as an
    integer number of units [10^-ndigits]. *)
Definition scaled_digits (m : positive) (e : Z) (ndigits : nat) : Z :=
  let p := 10 ^ Z.of_nat ndigits in
  match e with
  | Zneg e' => div_half_even (Zpos m * p) (2 ^ Zpos e')
  | _ => Zpos m * 2 ^ e * p
  end.

(** [round(x, ndigits)] for [0 <= ndigits]: the exact value of [x] is
    rounded half-even to [ndigits] decimals and the decimal is converted
    back to the nearest binary64 value; zeros, infinities and NaN are
    returned unchanged. *)
Definition round (x : float) (ndigits : nat) : float :=
  match Prim2SF x with
  | S754_finite s m e =>
      match scaled_digits m e ndigits with
      | Zpos k =>
          SF2Prim (SFdiv prec emax (S754_finite s k 0)
                     (S754_finite false (Z.to_pos (10 ^ Z.of_nat ndigits)) 0))
      | _ => if s then (-0)%float else 0%float
      end
  | _ => x
  end.

End Py.

(** ** Strings *)

Module Str.

(** [str.lower] on ASCII letters.  Characters outside [A-Z] are kept: no
    character outside ASCII lower-cases to a letter of "petrol" or
    "diesel", so membership in the fuel table is decided as in Python. *)
Definition lower_ascii (c : ascii) : ascii :=
  let n := nat_of_ascii c in
  if (65 <=? n)%nat && (n <=? 90)%nat then ascii_of_nat (n + 32) else c.

Fixpoint lower (s : string) : string :=
  match s with
  | EmptyString => EmptyString
  | String c s' => String (lower_ascii c) (lower s')
  end.

(** [sep.join(l)]. *)
Fixpoint join (sep : string) (l : list string) : string :=
  match l with
  | [] => EmptyString
  | [x] => x
  | x :: l' => String.append x (String.append sep (join sep l'))
  end.

End Str.

(** ** Raised exceptions as an error monad *)

Record HTTPException := mkHTTPException { status_code : Z; detail : string }.

Definition raises (A : Type) : Type := (HTTPException + A)%type.

Definition ret {A} (a : A) : raises A := inr a.
Definition raise {A} (e : HTTPException) : raises A := inl e.
Definition bind {A B} (m : raises A) (k : A -> raises B) : raises B :=
  match m with
  | inl e => inl e
  | inr a => k a
  end.

Notation "x <- m ;; k" := (bind m (fun x => k))
  (at level 100, m at next level, right associativity).

(** ** Emission estimator *)

Local Open Scope float_scope.

(** The dictionary returned by [emission_factors]. *)
Record Factors := mkFactors { co2_kg_per_l : float; co_base_g_per_km : float }.

(** The dictionary returned by [estimate_emissions]. *)
Record Metrics := mkMetrics { co_g : float; co2_kg : float; co2_g_per_km : float }.

Definition emission_factors (fuel_type : string) : raises Factors :=
  let fuel_type := Str.lower fuel_type in
  if negb (String.eqb fuel_type "petrol" || String.eqb fuel_type "diesel")
  then raise (mkHTTPException 400 "fuel_type must be 'petrol' or 'diesel'")
  else if String.eqb fuel_type "petrol"
  then ret (mkFactors 2.31 1.2)
  else ret (mkFactors 2.68 0.8).

(** Lines 50-54: the fuel consumed, given or derived from the efficiency.
    [efficiency_km_per_l and efficiency_km_per_l > 0] is first the
    truthiness of the optional float (absent and zero are falsy), then the
    comparison. *)
Definition resolve_fuel_used (distance_km : float)
    (fuel_used_l efficiency_km_per_l : option float) : raises float :=
  match fuel_used_l with
  | Some fuel => ret fuel
  | None =>
      match efficiency_km_per_l with
      | Some eff =>
          if Py.truthy eff && (0 <? eff)
          then ret (distance_km / eff)
          else raise (mkHTTPException 400 "Provide fuel_used_l or efficiency_km_per_l > 0")
      | None => raise (mkHTTPException 400 "Provide fuel_used_l or efficiency_km_per_l > 0")
      end
  end.

(** Line 60: [speed = avg_speed_kmh or 40.0]. *)
Definition speed (avg_speed_kmh : option float) : float :=
  Py.or_else avg_speed_kmh 40.0.

(** Lines 63-65: the CO rate per kilometre. *)
Definition co_g_per_km (factors : Factors) (avg_speed_kmh : option float) : float :=
  let base := co_base_g_per_km factors in
  let speed_factor := 0.02 * abs (speed avg_speed_kmh - 50) in
  Py.max 0.2 (base + speed_factor).

Definition estimate_emissions (distance_km : float) (fuel_type : string)
    (fuel_used_l efficiency_km_per_l avg_speed_kmh : option float) : raises Metrics :=
  if distance_km <? 0
  then raise (mkHTTPException 400 "distance_km must be >= 0")
  else
    factors <- emission_factors fuel_type ;;
    fuel_used_l <- resolve_fuel_used distance_km fuel_used_l efficiency_km_per_l ;;
    let co2_kg := fuel_used_l * co2_kg_per_l factors in
    let co2_g_per_km := if 0 <? distance_km then (co2_kg * 1000.0) / distance_km else 0.0 in
    let co_g_total := co_g_per_km factors avg_speed_kmh * distance_km in
    ret {| co_g := Py.round co_g_total 2;
           co2_kg := Py.round co2_kg 3;
           co2_g_per_km := Py.round co2_g_per_km 1 |}.

(** ** Threshold evaluator *)

Definition check_thresholds (co_g co2_g_per_km : float) : bool * option string :=
  let reasons := [] in
  let reasons := if 180 <? co2_g_per_km then reasons ++ ["High CO2 intensity"%string] else reasons in
  let reasons := if 20 <? co_g then reasons ++ ["High CO emission"%string] else reasons in
  ((0 <? length reasons)%nat,
   match reasons with
   | [] => None
   | _ => Some (Str.join ", " reasons)
   end).

(** ** Request and response models *)

Record EstimateRequest := mkEstimateRequest {
  vehicle_id : string;
  distance_km : float;
  fuel_used_l : option float;
  efficiency_km_per_l : option float;
  fuel_type : string;
  avg_speed_kmh : option float
}.

Record EstimateResponse := mkEstimateResponse {
  resp_co_g : float;
  resp_co2_kg : float;
  resp_co2_g_per_km : float;
  resp_alert : bool;
  resp_reason : option string
}.

(** The [Field] constraints of [EstimateRequest]: [ge=0] is [0 <= x],
    [gt=0] is [0 < x], and [fuel_type] is one of the two literals. *)
Definition opt_holds (p : float -> bool) (x : option float) : bool :=
  match x with
  | Some v => p v
  | None => true
  end.

Definition request_valid (data : EstimateRequest) : bool :=
  (0 <=? distance_km data)
  && opt_holds (fun v => 0 <=? v) (fuel_used_l data)
  && opt_holds (fun v => 0 <? v) (efficiency_km_per_l data)
  && (String.eqb (fuel_type data) "petrol" || String.eqb (fuel_type data) "diesel")
  && opt_holds (fun v => 0 <=? v) (avg_speed_kmh data).

(** The document written by [estimate]. *)
Record Document := mkDocument {
  doc_vehicle_id : string;
  doc_distance_km : float;
  doc_fuel_used_l : option float;
  doc_efficiency_km_per_l : option float;
  doc_fuel_type : string;
  doc_avg_speed_kmh : option float;
  doc_co_g : float;
  doc_co2_kg : float;
  doc_co2_g_per_km : float;
  doc_alert : bool;
  doc_reason : option string
}.

(** ** Database schemas *)

(** [schemas.EmissionReading]: the [Field] constraints a document of the
    "emissionreading" collection is to meet ([ge=0] and [gt=0] on the
    numbers, one of the two literals for the fuel type). *)
Definition EmissionReading_valid (doc : Document) : bool :=
  (0 <=? doc_distance_km doc)
  && opt_holds (fun v => 0 <=? v) (doc_fuel_used_l doc)
  && opt_holds (fun v => 0 <? v) (doc_efficiency_km_per_l doc)
  && (String.eqb (doc_fuel_type doc) "petrol" || String.eqb (doc_fuel_type doc) "diesel")
  && opt_holds (fun v => 0 <=? v) (doc_avg_speed_kmh doc)
  && (0 <=? doc_co_g doc)
  && (0 <=? doc_co2_kg doc)
  && (0 <=? doc_co2_g_per_km doc).

(** ** Calendar: UTC instants and [strftime("%Y-%m-%d")]

    An aware [datetime] is the number of microseconds since
    1970-01-01T00:00:00Z; [timedelta(days=n)] is [n] days of microseconds. *)

Module Calendar.

Local Open Scope Z_scope.

Definition DAY : Z := 86400 * 1000000.

Definition timedelta_days (n : Z) : Z := n * DAY.

(** The UTC calendar date of an instant, as days since 1970-01-01. *)
Definition utc_date (ts : Z) : Z := ts / DAY.

(** Proleptic Gregorian (year, month, day) of a day number: days are
    counted from 0000-03-01 in eras of 400 years. *)
Definition civil_from_days (z : Z) : Z * Z * Z :=
  let z := z + 719468 in
  let era := z / 146097 in
  let doe := z mod 146097 in
  let yoe := (doe - doe / 1460 + doe / 36524 - doe / 146096) / 365 in
  let doy := doe - (365 * yoe + yoe / 4 - yoe / 100) in
  let mp := (5 * doy + 2) / 153 in
  let d := doy - (153 * mp + 2) / 5 + 1 in
  let m := if mp <? 10 then mp + 3 else mp - 9 in
  (yoe + era * 400 + (if m <=? 2 then 1 else 0), m, d).

(** The inverse direction, used to show that distinct days print
    differently. *)
Definition days_from_civil (ymd : Z * Z * Z) : Z :=
  let '(y, m, d) := ymd in
  let y := y - (if m <=? 2 then 1 else 0) in
  let era := y / 400 in
  let yoe := y mod 400 in
  let mp := if 2 <? m then m - 3 else m + 9 in
  let doy := (153 * mp + 2) / 5 + d - 1 in
  let doe := yoe * 365 + yoe / 4 - yoe / 100 + doy in
  era * 146097 + doe - 719468.

Definition digit (n : Z) : ascii := ascii_of_nat (48 + Z.to_nat n).

(** [%m] and [%d]: two digits. *)
Definition two_digits (n : Z) : string :=
  String (digit (n / 10)) (String (digit (n mod 10)) EmptyString).

(** [%Y]: the decimal digits of the year (four of them for the years
    1000 to 9999). *)
Definition year_digits (y : Z) : string :=
  DecimalString.NilEmpty.string_of_int (Z.to_int y).

(** [d.strftime("%Y-%m-%d")] for the day number [d]. *)
Definition format_date (day : Z) : string :=
  let '(y, m, d) := civil_from_days day in
  String.append (year_digits y)
    (String.append "-" (String.append (two_digits m)
       (String.append "-" (two_digits d)))).

(** [ts.astimezone(timezone.utc).strftime("%Y-%m-%d")]. *)
Definition strftime_ymd (ts : Z) : string := format_date (utc_date ts).

End Calendar.

(** ** Stored readings and the weekly report *)

(** A document of the "emissionreading" collection as [weekly_analysis]
    reads it: each field is reached through [d.get], so each may be
    missing.  [rd_created_at] is [None] when the key is missing or does not
    hold a datetime; both cases fall back to [now].  A stored datetime is
    taken as an instant: [astimezone] is applied to aware datetimes, or to
    naive ones on a host whose local zone is UTC. *)
Record Reading := mkReading {
  rd_vehicle_id : option string;
  rd_co_g : option float;
  rd_co2_kg : option float;
  rd_alert : option bool;
  rd_created_at : option Z
}.

(** [d.get("co_g", 0)], [d.get("co2_kg", 0)] and the truthiness of
    [d.get("alert")]. *)
Definition get_co_g (d : Reading) : float := default 0 (rd_co_g d).
Definition get_co2_kg (d : Reading) : float := default 0 (rd_co2_kg d).
Definition get_alert (d : Reading) : bool := default false (rd_alert d).

(** The builtin [sum] over floats.  Up to CPython 3.11 it adds from left
    to right starting at 0; later versions compensate the rounding errors
    of the additions.  The report is defined over either: an algorithm is
    a function on the list of summands that returns 0 on the empty list
    (Python's integer 0 there, which is 0.0 as a number). *)
Class Summation := mkSummation {
  py_sum : list float -> float;
  py_sum_nil : py_sum [] = 0
}.

#[export] Instance sum_left_to_right : Summation :=
  {| py_sum := fun l => fold_left PrimFloat.add l 0; py_sum_nil := eq_refl |}.

(** The integer-to-float conversion of [x / n] for an [int] [n]: the
    nearest binary64 value. *)
Definition float_of_nat (n : nat) : float :=
  SF2Prim (binary_normalize prec emax (Z.of_nat n) 0 false).

(** A per-day accumulator: the dictionary
    [{"trips": 0, "co_g": 0.0, "co2_kg": 0.0, "alerts": 0}]. *)
Record Bucket := mkBucket {
  b_trips : nat;
  b_co_g : float;
  b_co2_kg : float;
  b_alerts : nat
}.

Definition empty_bucket : Bucket := mkBucket 0 0.0 0.0 0.

Record Summary := mkSummary {
  total_trips : nat;
  total_co_g : float;
  total_co2_kg : float;
  avg_co_g : float;
  avg_co2_kg : float;
  alerts : nat
}.

Record DayEntry := mkDayEntry {
  day : string;
  trips : nat;
  day_co_g : float;
  day_co2_kg : float;
  day_alerts : nat
}.

Record Report := mkReport { summary : Summary; by_day : list DayEntry }.

(** Lines 174-175: the bucket key of a reading. *)
Definition day_key (now : Z) (d : Reading) : string :=
  Calendar.strftime_ymd (default now (rd_created_at d)).

(** Lines 176-180: one iteration of the bucketing loop. *)
Definition add_to_bucket (b : Bucket) (d : Reading) : Bucket :=
  {| b_trips := b_trips b + 1;
     b_co_g := b_co_g b + get_co_g d;
     b_co2_kg := b_co2_kg b + get_co2_kg d;
     b_alerts := b_alerts b + (if get_alert d then 1 else 0) |}.

Definition bucket_step (now : Z) (by_day : gmap string Bucket) (d : Reading)
    : gmap string Bucket :=
  let k := day_key now d in
  <[k := add_to_bucket (default empty_bucket (by_day !! k)) d]> by_day.

Definition build_buckets (now : Z) (readings : list Reading) : gmap string Bucket :=
  fold_left (bucket_step now) readings ∅.

(** Line 183: the seven day strings. *)
Definition days (seven_days_ago : Z) : list string :=
  map (fun i => Calendar.strftime_ymd (seven_days_ago + Calendar.timedelta_days (Z.of_nat i)))
      (seq 0 7).

(** Lines 184-193: one entry of [day_series]. *)
Definition day_entry (by_day : gmap string Bucket) (day : string) : DayEntry :=
  {| day := day;
     trips := from_option b_trips 0%nat (by_day !! day);
     day_co_g := Py.round (from_option b_co_g 0.0 (by_day !! day)) 2;
     day_co2_kg := Py.round (from_option b_co2_kg 0.0 (by_day !! day)) 3;
     day_alerts := from_option b_alerts 0%nat (by_day !! day) |}.

(** Lines 163-205 of [weekly_analysis]: the report over the readings the
    query produced. *)
Definition analyse `{Summation} (now : Z) (readings : list Reading) : Report :=
  let seven_days_ago := (now - Calendar.timedelta_days 7)%Z in
  let total_trips := length readings in
  let sum_co_g := py_sum (map get_co_g readings) in
  let sum_co2_kg := py_sum (map get_co2_kg readings) in
  let alerts := length (List.filter get_alert readings) in
  let avg_co_g :=
    if (0 <? total_trips)%nat then Py.round (sum_co_g / float_of_nat total_trips) 2 else 0.0 in
  let avg_co2_kg :=
    if (0 <? total_trips)%nat then Py.round (sum_co2_kg / float_of_nat total_trips) 3 else 0.0 in
  let by_day := build_buckets now readings in
  let day_series := map (day_entry by_day) (days seven_days_ago) in
  {| summary := {| total_trips := total_trips;
                   total_co_g := Py.round sum_co_g 2;
                   total_co2_kg := Py.round sum_co2_kg 3;
                   avg_co_g := avg_co_g;
                   avg_co2_kg := avg_co2_kg;
                   alerts := alerts |};
     by_day := day_series |}.

(** ** The two routes over the document store

    The [database] module is not part of the sources: the store, the
    exceptions its calls raise, the insert and the query are parameters.
    An insert returns an identifier or raises, and may change the store
    either way; a query returns the matching documents or raises. *)

Record Filter := mkFilter { created_at_gte : Z; filter_vehicle_id : option string }.

(** Lines 154-156: the filter of [weekly_analysis]; [if vehicle_id:] adds
    the identifier when it is given and not empty. *)
Definition filter_q (now : Z) (vehicle_id : option string) : Filter :=
  let seven_days_ago := (now - Calendar.timedelta_days 7)%Z in
  {| created_at_gte := seven_days_ago;
     filter_vehicle_id :=
       match vehicle_id with
       | Some v => if String.eqb v "" then None else Some v
       | None => None
       end |}.

Section Routes.

Context `{Summation}.
Variables Store Exception : Type.
Variable create_document : string -> Document -> Store -> (Exception + string) * Store.
Variable find : string -> Filter -> Store -> Exception + list Reading.

(** [POST /api/estimate]: the response, or the [HTTPException] raised by
    the estimator, and the store after the call. *)
Definition estimate (data : EstimateRequest) (db : Store)
    : raises EstimateResponse * Store :=
  match estimate_emissions (distance_km data) (fuel_type data) (fuel_used_l data)
          (efficiency_km_per_l data) (avg_speed_kmh data) with
  | inl e => (inl e, db)
  | inr metrics =>
      let '(alert, reason) := check_thresholds (co_g metrics) (co2_g_per_km metrics) in
      let doc :=
        {| doc_vehicle_id := vehicle_id data;
           doc_distance_km := distance_km data;
           doc_fuel_used_l := fuel_used_l data;
           doc_efficiency_km_per_l := efficiency_km_per_l data;
           doc_fuel_type := fuel_type data;
           doc_avg_speed_kmh := avg_speed_kmh data;
           doc_co_g := co_g metrics;
           doc_co2_kg := co2_kg metrics;
           doc_co2_g_per_km := co2_g_per_km metrics;
           doc_alert := alert;
           doc_reason := reason |} in
      (* try: create_document(...) except Exception: pass *)
      let db := match create_document "emissionreading" doc db with
                | (inr _, db') => db'
                | (inl _, db') => db'
                end in
      (inr {| resp_co_g := co_g metrics;
              resp_co2_kg := co2_kg metrics;
              resp_co2_g_per_km := co2_g_per_km metrics;
              resp_alert := alert;
              resp_reason := reason |}, db)
  end.

(** Lines 152-161: the query of [weekly_analysis]; a query that raises
    counts as one that found nothing. *)
Definition query_readings (now : Z) (vehicle_id : option string) (db : Store)
    : list Reading :=
  match find "emissionreading" (filter_q now vehicle_id) db with
  | inr readings => readings
  | inl _ => []
  end.

(** [GET /api/weekly-analysis] at the instant [now]. *)
Definition weekly_analysis (now : Z) (vehicle_id : option string) (db : Store) : Report :=
  analyse now (query_readings now vehicle_id db).

End Routes.

(** ** The [/test] route

    A Python string is the sequence of bytes of its UTF-8 encoding. *)

Module Utf8.

(** A byte [10xxxxxx] continues the character begun before it. *)
Definition is_continuation (c : ascii) : bool :=
  let n := nat_of_ascii c in (128 <=? n)%nat && (n <? 192)%nat.

(** [s[:n]]: the first [n] characters. *)
Fixpoint take_chars (n : nat) (s : string) : string :=
  match s with
  | EmptyString => EmptyString
  | String c s' =>
      if is_continuation c then String c (take_chars n s')
      else match n with
           | O => EmptyString
           | S n' => String c (take_chars n' s')
           end
  end.

(** [len(s)]: the number of characters. *)
Fixpoint char_count (s : string) : nat :=
  match s with
  | EmptyString => 0
  | String c s' => (if is_continuation c then 0 else 1) + char_count s'
  end.

(** A string that is the rest of a text cut between two characters: it
    is empty or begins a character. *)
Definition at_boundary (s : string) : Prop :=
  match s with
  | EmptyString => True
  | String c _ => is_continuation c = false
  end.

End Utf8.

(** An exception derived from [Exception]; [message] is [str(e)]. *)
Record PyException := mkPyException { message : string }.

(** The process-wide handle [db] of the [database] module as [/test] uses
    it: reading [db.name] yields a name, finds no such attribute
    ([hasattr] is false) or raises; [db.list_collection_names()] returns
    the names or raises. *)
Record Database := mkDatabase {
  db_name : PyException + option string;
  list_collection_names : PyException + list string
}.

(** The dictionary [response]. *)
Record TestResponse := mkTestResponse {
  backend : string;
  database : string;
  database_url : option string;
  database_name : option string;
  connection_status : string;
  collections : list string
}.

Definition set_database (v : string) (r : TestResponse) : TestResponse :=
  mkTestResponse (backend r) v (database_url r) (database_name r)
    (connection_status r) (collections r).
Definition set_database_url (v : string) (r : TestResponse) : TestResponse :=
  mkTestResponse (backend r) (database r) (Some v) (database_name r)
    (connection_status r) (collections r).
Definition set_database_name (v : string) (r : TestResponse) : TestResponse :=
  mkTestResponse (backend r) (database r) (database_url r) (Some v)
    (connection_status r) (collections r).
Definition set_connection_status (v : string) (r : TestResponse) : TestResponse :=
  mkTestResponse (backend r) (database r) (database_url r) (database_name r)
    v (collections r).
Definition set_collections (v : list string) (r : TestResponse) : TestResponse :=
  mkTestResponse (backend r) (database r) (database_url r) (database_name r)
    (connection_status r) v.

(** The truthiness of [os.getenv(name)]: set, and not empty. *)
Definition env_set (value : option string) : bool :=
  match value with
  | Some v => negb (String.eqb v "")
  | None => false
  end.

Definition test_database (db : option Database) (getenv : string -> option string)
    : TestResponse :=
  let response :=
    {| backend := "✅ Running";
       database := "❌ Not Available";
       database_url := None;
       database_name := None;
       connection_status := "Not Connected";
       collections := [] |} in
  let response :=
    match db with
    | Some db =>
        let response := set_database "✅ Available" response in
        let response := set_database_url "✅ Configured" response in
        match db_name db with
        | inr name =>
            let response := set_database_name (default "✅ Connected"%string name) response in
            let response := set_connection_status "Connected" response in
            match list_collection_names db with
            | inr collections =>
                let response := set_collections (take 10 collections) response in
                set_database "✅ Connected & Working" response
            | inl e =>
                set_database
                  (String.append "⚠️  Connected but Error: " (Utf8.take_chars 50 (message e)))
                  response
            end
        | inl e =>
            set_database (String.append "❌ Error: " (Utf8.take_chars 50 (message e))) response
        end
    | None => set_database "⚠️  Available but not initialized" response
    end in
  let response :=
    set_database_url
      (if env_set (getenv "DATABASE_URL") then "✅ Set" else "❌ Not Set") response in
  set_database_name
    (if env_set (getenv "DATABASE_NAME") then "✅ Set" else "❌ Not Set") response.

(** ** An in-memory store *)

(** Modelled from the spec: the query of the storage collaborator
    ([database.py] is not among the sources), per section 6:
    [query(collection_name, filter{created_at >= T, vehicle_id?})] returns
    the documents of the collection, in stored order, whose [created_at] is
    at least [T] and whose [vehicle_id] is the requested one when one is
    requested.  This store never raises. *)
Definition matches (q : Filter) (d : Reading) : bool :=
  match rd_created_at d with
  | Some ts => (created_at_gte q <=? ts)%Z
  | None => false
  end
  && match filter_vehicle_id q with
     | Some v =>
         match rd_vehicle_id d with
         | Some v' => String.eqb v v'
         | None => false
         end
     | None => true
     end.

Definition memory_find (collection_name : string) (q : Filter) (db : list Reading)
    : Empty_set + list Reading :=
  inr (if String.eqb collection_name "emissionreading"
       then List.filter (matches q) db
       else []).

(** * Vocabulary of the properties *)

(** The two rows of the factor table. *)
Definition petrol : Factors := mkFactors 2.31 1.2.
Definition diesel : Factors := mkFactors 2.68 0.8.

(** The messages of the rules that fire, in the order they are checked. *)
Definition fired_rules (co_g co2_g_per_km : float) : list string :=
  (if 180 <? co2_g_per_km then ["High CO2 intensity"%string] else [])
  ++ (if 20 <? co_g then ["High CO emission"%string] else []).

(** The answer of [estimate] as a function of the request alone: the
    estimator's exception, or the metrics with their alert. *)
Definition response_of (data : EstimateRequest) : raises EstimateResponse :=
  metrics <- estimate_emissions (distance_km data) (fuel_type data) (fuel_used_l data)
               (efficiency_km_per_l data) (avg_speed_kmh data) ;;
  ret {| resp_co_g := co_g metrics;
         resp_co2_kg := co2_kg metrics;
         resp_co2_g_per_km := co2_g_per_km metrics;
         resp_alert := fst (check_thresholds (co_g metrics) (co2_g_per_km metrics));
         resp_reason := snd (check_thresholds (co_g metrics) (co2_g_per_km metrics)) |}.

(** The document [estimate] builds from a request and its response
    (lines 126-136). *)
Definition document_of (data : EstimateRequest) (resp : EstimateResponse) : Document :=
  {| doc_vehicle_id := vehicle_id data;
     doc_distance_km := distance_km data;
     doc_fuel_used_l := fuel_used_l data;
     doc_efficiency_km_per_l := efficiency_km_per_l data;
     doc_fuel_type := fuel_type data;
     doc_avg_speed_kmh := avg_speed_kmh data;
     doc_co_g := resp_co_g resp;
     doc_co2_kg := resp_co2_kg resp;
     doc_co2_g_per_km := resp_co2_g_per_km resp;
     doc_alert := resp_alert resp;
     doc_reason := resp_reason resp |}.

(** The fuel type names a row of the factor table, whatever its case. *)
Definition known_fuel (fuel_type : string) : Prop :=
  Str.lower fuel_type = "petrol"%string \/ Str.lower fuel_type = "diesel"%string.

(** The fuel consumed is given, or an efficiency above zero is. *)
Definition fuel_derivable (fuel_used_l efficiency_km_per_l : option float) : Prop :=
  (exists f, fuel_used_l = Some f)
  \/ (exists e, efficiency_km_per_l = Some e /\ (0 <? e) = true).

(** The three grounds on which the estimator rejects its input. *)
Definition invalid_input (distance_km : float) (fuel_type : string)
    (fuel_used_l efficiency_km_per_l : option float) : Prop :=
  (distance_km <? 0) = true \/ ~ known_fuel fuel_type
  \/ ~ fuel_derivable fuel_used_l efficiency_km_per_l.

(** The exception of line 54. *)
Definition missing_fuel : HTTPException :=
  mkHTTPException 400 "Provide fuel_used_l or efficiency_km_per_l > 0".

(** The readings filed under the key [k], in query order. *)
Definition filed_under (now : Z) (k : string) (readings : list Reading) : list Reading :=
  List.filter (fun d => String.eqb (day_key now d) k) readings.

(** The UTC date a reading is filed under. *)
Definition date_of (now : Z) (d : Reading) : Z := Calendar.utc_date (default now (rd_created_at d)).

(** The readings of one UTC date, in query order. *)
Definition on_date (now : Z) (date : Z) (readings : list Reading) : list Reading :=
  List.filter (fun d => (date_of now d =? date)%Z) readings.

(** What the report says about one UTC date: the readings of that date,
    counted and added up in query order. *)
Definition day_report (now : Z) (readings : list Reading) (date : Z) : DayEntry :=
  let sel := on_date now date readings in
  {| day := Calendar.format_date date;
     trips := length sel;
     day_co_g := Py.round (fold_left PrimFloat.add (map get_co_g sel) 0) 2;
     day_co2_kg := Py.round (fold_left PrimFloat.add (map get_co2_kg sel) 0) 3;
     day_alerts := length (List.filter get_alert sel) |}.

(** The zero-filled entry of a day. *)
Definition empty_day (date : Z) : DayEntry :=
  {| day := Calendar.format_date date;
     trips := 0; day_co_g := 0.0; day_co2_kg := 0.0; day_alerts := 0 |}.

(** Whether a date is one of the seven days of the series that starts at
    [first]. *)
Definition in_series (first date : Z) : bool :=
  ((first <=? date) && (date <=? first + 6))%Z.

(** The report over no readings. *)
Definition zero_report (now : Z) : Report :=
  {| summary := {| total_trips := 0; total_co_g := 0.0; total_co2_kg := 0.0;
                   avg_co_g := 0.0; avg_co2_kg := 0.0; alerts := 0 |};
     by_day := map (fun i => empty_day
                      (Calendar.utc_date (now - Calendar.timedelta_days 7) + Z.of_nat i)%Z)
                 (seq 0 7) |}.

(** The readings a store returns when it honours the filter: each has a
    [created_at] at or after [now - 7 days]. *)
Definition within_filter (now : Z) (d : Reading) : Prop :=
  exists ts, rd_created_at d = Some ts /\ (now - Calendar.timedelta_days 7 <= ts)%Z.

(** *** Signs of specification floats *)

(** The sign a specification float carries, NaN carrying any. *)
Definition sf_signed (s : bool) (x : spec_float) : Prop :=
  match x with
  | S754_nan => True
  | S754_zero s' | S754_infinity s' | S754_finite s' _ _ => s' = s
  end.

(** Not below zero: NaN, a zero of either sign, or a positive value. *)
Definition sf_not_negative (x : spec_float) : Prop :=
  match x with
  | S754_infinity s | S754_finite s _ _ => s = false
  | _ => True
  end.

(** Above zero. *)
Definition sf_above_zero (x : spec_float) : Prop :=
  match x with
  | S754_infinity s | S754_finite s _ _ => s = false
  | _ => False
  end.

(** * Properties *)

(** ** Facts about binary64 comparisons and products *)

Section FloatFacts.

Lemma Prim2SF_zero : Prim2SF 0 = S754_zero false.
Proof. reflexivity. Qed.

(** A float that compares equal to zero is one of the two zeros. *)
Lemma eqb_zero_cases (x : float) : (x =? 0) = true -> x = 0 \/ x = -0.
Proof.
  rewrite FloatAxioms.eqb_spec, Prim2SF_zero. intros Hx.
  rewrite <- (SF2Prim_Prim2SF x).
  destruct (Prim2SF x) as [[|]|[|]| |[|] m e]; cbn in Hx; try discriminate.
  - right. reflexivity.
  - left. reflexivity.
Qed.

(** [0 <= d] excludes [d < 0]. *)
Lemma leb_zero_not_ltb (d : float) : (0 <=? d) = true -> (d <? 0) = false.
Proof.
  rewrite FloatAxioms.leb_spec, FloatAxioms.ltb_spec, Prim2SF_zero.
  destruct (Prim2SF d) as [[|]|[|]| |[|] m e]; cbn; congruence.
Qed.

(** A float above zero is truthy. *)
Lemma ltb_zero_truthy (e : float) : (0 <? e) = true -> Py.truthy e = true.
Proof.
  unfold Py.truthy. rewrite FloatAxioms.ltb_spec, FloatAxioms.eqb_spec, Prim2SF_zero.
  destruct (Prim2SF e) as [[|]|[|]| |[|] m x]; cbn; congruence.
Qed.

(** Whatever exceeds a positive finite float is positive, finite or not. *)
Lemma ltb_pos_class (m0 : positive) (e0 : Z) (v : float) :
  SFltb (S754_finite false m0 e0) (Prim2SF v) = true ->
  Prim2SF v = S754_infinity false \/ exists m e, Prim2SF v = S754_finite false m e.
Proof.
  destruct (Prim2SF v) as [[|]|[|]| |[|] m e]; cbn; try discriminate; eauto.
Qed.

(** A positive finite float times [+0] is [+0]. *)
Lemma mul_pos_finite_zero (x : float) (m : positive) (e : Z) :
  Prim2SF x = S754_finite false m e -> x * 0 = 0.
Proof.
  intros Hx. apply Prim2SF_inj. rewrite FloatAxioms.mul_spec, Hx, Prim2SF_zero. reflexivity.
Qed.

Lemma mul_infinity_zero (x : float) :
  Prim2SF x = S754_infinity false -> x * 0 = nan.
Proof.
  intros Hx. apply Prim2SF_inj. rewrite FloatAxioms.mul_spec, Hx, Prim2SF_zero. reflexivity.
Qed.

End FloatFacts.

(** ** Rounding and dates on known values *)

(** [round] agrees with CPython on ties, on values that are not exactly
    representable, on negative values that round to zero and on large
    values. *)
Example round_examples :
  Py.round 2.675 2 = 2.67 /\ Py.round 0.125 2 = 0.12 /\ Py.round 0.375 2 = 0.38
  /\ Py.round 1.005 2 = 1.0 /\ Py.round 99.9995 3 = 99.999 /\ Py.round 0.25 1 = 0.2
  /\ Py.round (-0.001) 2 = -0 /\ Py.round 1234567.891 1 = 1234567.9
  /\ Py.round 1e300 2 = 1e300 /\ Py.round infinity 2 = infinity /\ Py.round nan 2 = nan.
Proof. repeat split. Qed.

Example format_date_examples :
  Calendar.format_date 0 = "1970-01-01"%string
  /\ Calendar.format_date (-1) = "1969-12-31"%string
  /\ Calendar.format_date 11016 = "2000-02-29"%string
  /\ Calendar.format_date 19782 = "2024-02-29"%string
  /\ Calendar.format_date 19783 = "2024-03-01"%string
  /\ Calendar.format_date 20761 = "2026-11-04"%string
  /\ Calendar.strftime_ymd 1793836799999999 = "2026-11-04"%string
  /\ Calendar.strftime_ymd 1793836800000000 = "2026-11-05"%string.
Proof. repeat split. Qed.

(** ** Threshold evaluator *)

(** C4: the alert is raised exactly when the CO2 intensity exceeds 180 or
    the CO total exceeds 20; the reason joins the messages of the fired
    rules with ", " in check order, and is absent when no rule fires. *)
Theorem check_thresholds_spec (co_g co2_g_per_km : float) :
  let '(alert, reason) := check_thresholds co_g co2_g_per_km in
  (alert = true <-> (180 <? co2_g_per_km) = true \/ (20 <? co_g) = true)
  /\ reason = (if alert then Some (Str.join ", " (fired_rules co_g co2_g_per_km)) else None)
  /\ reason =
       match 180 <? co2_g_per_km, 20 <? co_g with
       | true, true => Some "High CO2 intensity, High CO emission"%string
       | true, false => Some "High CO2 intensity"%string
       | false, true => Some "High CO emission"%string
       | false, false => None
       end.
Proof.
  unfold check_thresholds, fired_rules.
  destruct (180 <? co2_g_per_km), (20 <? co_g); cbn; intuition congruence.
Qed.

(** ** Emission estimator: worked inputs *)

Lemma emission_factors_petrol : emission_factors "petrol" = inr petrol.
Proof. reflexivity. Qed.

Lemma emission_factors_diesel : emission_factors "diesel" = inr diesel.
Proof. reflexivity. Qed.

Lemma estimate_emissions_100km :
  estimate_emissions 100 "petrol" None (Some 10) (Some 50)
  = inr {| co_g := 120.0; co2_kg := 23.1; co2_g_per_km := 231.0 |}.
Proof. vm_compute. reflexivity. Qed.

Lemma estimate_emissions_diesel_10km :
  estimate_emissions 10 "diesel" None (Some 20) (Some 50)
  = inr {| co_g := 8.0; co2_kg := 1.34; co2_g_per_km := 134.0 |}.
Proof. vm_compute. reflexivity. Qed.

Section EstimateRoute.

Variables Store Exception : Type.
Variable create_document : string -> Document -> Store -> (Exception + string) * Store.

Lemma estimate_response (data : EstimateRequest) (db : Store) :
  fst (estimate Store Exception create_document data db) = response_of data.
Proof.
  unfold estimate, response_of, bind, ret.
  destruct (estimate_emissions _ _ _ _ _) as [e|metrics]; [reflexivity|].
  destruct (check_thresholds _ _) as [alert reason]. reflexivity.
Qed.

(** C1 (as amended): for 100 km at 10 km/l on petrol at 50 km/h the
    response is co_g = 120.0, co2_kg = 23.1, co2_g_per_km = 231.0 with the
    alert raised, and both rules fire: the reason is
    "High CO2 intensity, High CO emission". *)
Theorem estimate_100km_petrol (vid : string) (db : Store) :
  fst (estimate Store Exception create_document
         (mkEstimateRequest vid 100 None (Some 10) "petrol" (Some 50)) db)
  = inr {| resp_co_g := 120.0;
           resp_co2_kg := 23.1;
           resp_co2_g_per_km := 231.0;
           resp_alert := true;
           resp_reason := Some "High CO2 intensity, High CO emission"%string |}.
Proof.
  rewrite estimate_response. unfold response_of. cbn [distance_km fuel_type fuel_used_l
    efficiency_km_per_l avg_speed_kmh]. rewrite estimate_emissions_100km. reflexivity.
Qed.

End EstimateRoute.

(** C1 (as stated) fails: the reason is not "High CO2 intensity" alone,
    since co_g = 120.0 also exceeds the CO threshold of 20. *)
Lemma estimate_100km_petrol_reason :
  fst (estimate unit unit (fun _ _ db => (inr ""%string, db))
         (mkEstimateRequest "car" 100 None (Some 10) "petrol" (Some 50)) tt)
  <> inr {| resp_co_g := 120.0;
            resp_co2_kg := 23.1;
            resp_co2_g_per_km := 231.0;
            resp_alert := true;
            resp_reason := Some "High CO2 intensity"%string |}.
Proof.
  rewrite estimate_response. unfold response_of. cbn [distance_km fuel_type fuel_used_l
    efficiency_km_per_l avg_speed_kmh]. rewrite estimate_emissions_100km.
  intros Heq. discriminate Heq.
Qed.

(** ** The speed used by the CO model *)

Lemma speed_absent : speed None = 40.0.
Proof. reflexivity. Qed.

(** A provided speed is used when it is truthy, that is, not a zero. *)
Lemma speed_provided_nonzero (v : float) : Py.truthy v = true -> speed (Some v) = v.
Proof. unfold speed, Py.or_else. intros ->. reflexivity. Qed.

(** A provided speed of zero is replaced by the default. *)
Lemma speed_provided_zero (v : float) : (v =? 0) = true -> speed (Some v) = 40.0.
Proof. unfold speed, Py.or_else, Py.truthy. intros ->. reflexivity. Qed.

(** C2 at avg_speed_kmh = 0: the code takes the default speed 40.0, so
    the CO rate for petrol is 1.4 g/km where the provided speed would give
    max(0.2, 1.2 + 0.02 * |0 - 50|) = 2.2 g/km, and a 10 km trip reports
    co_g = 14.0 where that rate would give 22.0. *)
Theorem zero_speed_takes_default :
  speed (Some 0) = 40.0
  /\ co_g_per_km petrol (Some 0) = co_g_per_km petrol None
  /\ co_g_per_km petrol (Some 0) = 1.4
  /\ Py.max 0.2 (co_base_g_per_km petrol + 0.02 * abs (0 - 50)) = 2.2
  /\ estimate_emissions 10 "petrol" (Some 1) None (Some 0)
     = inr {| co_g := 14.0; co2_kg := 2.31; co2_g_per_km := 231.0 |}
  /\ Py.round (Py.max 0.2 (co_base_g_per_km petrol + 0.02 * abs (0 - 50)) * 10) 2 = 22.0.
Proof. repeat split; vm_compute; reflexivity. Qed.

(** ** Which inputs the estimator rejects *)

Lemma emission_factors_known (fuel_type : string) :
  known_fuel fuel_type ->
  emission_factors fuel_type = inr (if String.eqb (Str.lower fuel_type) "petrol" then petrol else diesel).
Proof.
  unfold known_fuel, emission_factors. intros [-> | ->]; reflexivity.
Qed.

Lemma emission_factors_unknown (fuel_type : string) :
  ~ known_fuel fuel_type ->
  emission_factors fuel_type
  = inl (mkHTTPException 400 "fuel_type must be 'petrol' or 'diesel'").
Proof.
  unfold known_fuel, emission_factors. intros Hn.
  destruct (String.eqb_spec (Str.lower fuel_type) "petrol") as [Hp|_]; [tauto|].
  destruct (String.eqb_spec (Str.lower fuel_type) "diesel") as [Hd|_]; [tauto|].
  reflexivity.
Qed.

Lemma known_fuel_dec (fuel_type : string) : known_fuel fuel_type \/ ~ known_fuel fuel_type.
Proof.
  unfold known_fuel.
  destruct (String.eqb_spec (Str.lower fuel_type) "petrol"); [tauto|].
  destruct (String.eqb_spec (Str.lower fuel_type) "diesel"); tauto.
Qed.

Lemma resolve_fuel_used_derivable (distance_km : float) (fuel_used_l efficiency_km_per_l : option float) :
  fuel_derivable fuel_used_l efficiency_km_per_l ->
  exists fuel, resolve_fuel_used distance_km fuel_used_l efficiency_km_per_l = inr fuel.
Proof.
  unfold resolve_fuel_used. intros [[f ->] | [e [-> He]]].
  - eauto.
  - destruct fuel_used_l as [f|]; [eauto|].
    rewrite (ltb_zero_truthy e He), He. cbn. eauto.
Qed.

Lemma resolve_fuel_used_missing (distance_km : float) (fuel_used_l efficiency_km_per_l : option float) :
  ~ fuel_derivable fuel_used_l efficiency_km_per_l ->
  resolve_fuel_used distance_km fuel_used_l efficiency_km_per_l = inl missing_fuel.
Proof.
  unfold resolve_fuel_used, fuel_derivable. intros Hn.
  destruct fuel_used_l as [f|]; [exfalso; eauto|].
  destruct efficiency_km_per_l as [e|]; [|reflexivity].
  destruct (0 <? e) eqn:He; [exfalso; eauto|].
  rewrite andb_false_r. reflexivity.
Qed.

Lemma fuel_derivable_dec (fuel_used_l efficiency_km_per_l : option float) :
  fuel_derivable fuel_used_l efficiency_km_per_l \/ ~ fuel_derivable fuel_used_l efficiency_km_per_l.
Proof.
  unfold fuel_derivable.
  destruct fuel_used_l as [f|]; [eauto|].
  destruct efficiency_km_per_l as [e|].
  - destruct (0 <? e) eqn:He; [eauto|].
    right. intros [[f Hf] | [e' [[= <-] He']]]; congruence.
  - right. intros [[f Hf] | [e' [He' _]]]; congruence.
Qed.

(** C3 (as amended): the estimator raises exactly when the distance is
    below zero, the lower-cased fuel type is neither "petrol" nor "diesel",
    or no fuel is given and no efficiency above zero is; in the last case
    (the first two not applying) the detail is
    "Provide fuel_used_l or efficiency_km_per_l > 0".  On every other
    input it returns the metrics computed from the factors and the fuel. *)
Theorem estimate_emissions_rejects (distance_km : float) (fuel_type : string)
    (fuel_used_l efficiency_km_per_l avg_speed_kmh : option float) :
  let result :=
    estimate_emissions distance_km fuel_type fuel_used_l efficiency_km_per_l avg_speed_kmh in
  (invalid_input distance_km fuel_type fuel_used_l efficiency_km_per_l
   <-> exists e, result = inl e /\ status_code e = 400%Z)
  /\ ((distance_km <? 0) = false -> known_fuel fuel_type ->
      ~ fuel_derivable fuel_used_l efficiency_km_per_l ->
      result = inl missing_fuel)
  /\ (~ invalid_input distance_km fuel_type fuel_used_l efficiency_km_per_l ->
      exists factors fuel,
        emission_factors fuel_type = inr factors
        /\ resolve_fuel_used distance_km fuel_used_l efficiency_km_per_l = inr fuel
        /\ result
           = inr {| co_g := Py.round (co_g_per_km factors avg_speed_kmh * distance_km) 2;
                    co2_kg := Py.round (fuel * co2_kg_per_l factors) 3;
                    co2_g_per_km :=
                      Py.round (if 0 <? distance_km
                                then (fuel * co2_kg_per_l factors * 1000.0) / distance_km
                                else 0.0) 1 |}).
Proof.
  unfold invalid_input, estimate_emissions. cbn zeta.
  destruct (distance_km <? 0) eqn:Hd.
  { split; [|split].
    - split; [eauto|]. intros _. left. reflexivity.
    - discriminate.
    - intros Hn. exfalso. apply Hn. left. reflexivity. }
  destruct (known_fuel_dec fuel_type) as [Hk|Hk].
  2:{ rewrite (emission_factors_unknown _ Hk). cbn. split; [|split].
      - split; [eauto|]. intros _. right. left. exact Hk.
      - tauto.
      - tauto. }
  rewrite (emission_factors_known _ Hk). cbn [bind].
  destruct (fuel_derivable_dec fuel_used_l efficiency_km_per_l) as [Hf|Hf].
  - destruct (resolve_fuel_used_derivable distance_km _ _ Hf) as [fuel Hfuel].
    rewrite Hfuel. cbn [bind ret]. split; [|split].
    + split.
      * intros [Hbad|[Hbad|Hbad]]; [discriminate|tauto|tauto].
      * intros [e [He _]]. discriminate He.
    + tauto.
    + intros _. eexists _, fuel. split; [reflexivity|]. split; reflexivity.
  - rewrite (resolve_fuel_used_missing distance_km _ _ Hf). cbn [bind]. split; [|split].
    + split; [|tauto]. intros _. exists missing_fuel. split; reflexivity.
    + reflexivity.
    + tauto.
Qed.

(** C3 (as stated) fails on two counts: the detail of the missing-fuel
    rejection is not "provide fuel_used_l or efficiency_km_per_l", and a
    fuel type that differs from "petrol" and "diesel" by case only is
    accepted. *)
Lemma estimate_emissions_detail_and_case :
  (exists e, estimate_emissions 10 "petrol" None None None = inl e
             /\ detail e <> "provide fuel_used_l or efficiency_km_per_l"%string)
  /\ ("PETROL" <> "petrol" /\ "PETROL" <> "diesel"
      /\ exists m, estimate_emissions 10 "PETROL" (Some 1) None None = inr m)%string.
Proof.
  split.
  - eexists. split; [reflexivity|]. cbn. discriminate.
  - split; [discriminate|]. split; [discriminate|]. eexists. reflexivity.
Qed.

(** ** Efficiency is not consulted when the fuel is given *)

(** C7: with [fuel_used_l] provided, the estimator and the response of the
    route are the same for any two values of [efficiency_km_per_l],
    whatever the other inputs are. *)
Theorem efficiency_ignored_when_fuel_given (Store Exception : Type)
    (create_document : string -> Document -> Store -> (Exception + string) * Store)
    (vid : string) (distance_km fuel : float) (fuel_type : string)
    (eff1 eff2 avg_speed_kmh : option float) (db : Store) :
  estimate_emissions distance_km fuel_type (Some fuel) eff1 avg_speed_kmh
  = estimate_emissions distance_km fuel_type (Some fuel) eff2 avg_speed_kmh
  /\ fst (estimate Store Exception create_document
            (mkEstimateRequest vid distance_km (Some fuel) eff1 fuel_type avg_speed_kmh) db)
     = fst (estimate Store Exception create_document
              (mkEstimateRequest vid distance_km (Some fuel) eff2 fuel_type avg_speed_kmh) db).
Proof.
  split; [reflexivity|]. rewrite !estimate_response. reflexivity.
Qed.

(** ** A trip of zero distance *)

(** The CO rate is [0.2] or a float above it, so its product with a zero
    distance is [0] unless the rate is infinite. *)
Lemma max_times_zero (v : float) :
  Py.max 0.2 v * 0 = if is_infinity (Py.max 0.2 v) then nan else 0.
Proof.
  unfold Py.max. destruct (0.2 <? v) eqn:Hv; [|reflexivity].
  rewrite FloatAxioms.ltb_spec in Hv.
  destruct (ltb_pos_class _ _ v Hv) as [Hinf | [m [e Hfin]]].
  - rewrite (mul_infinity_zero v Hinf).
    assert (v = infinity) as -> by (apply Prim2SF_inj; rewrite Hinf; reflexivity).
    reflexivity.
  - rewrite (mul_pos_finite_zero v m e Hfin).
    unfold is_infinity. rewrite FloatAxioms.eqb_spec, abs_spec, Hfin. reflexivity.
Qed.

(** For distance_km = 0 with 5 litres of petrol the estimator returns
    co2_kg = 11.55 and co2_g_per_km = 0.0 for every avg_speed_kmh and
    efficiency, and co_g = 0 unless the CO rate per kilometre is infinite:
    the product of an infinite rate with the zero distance is NaN. *)
Theorem estimate_emissions_zero_distance (efficiency_km_per_l avg_speed_kmh : option float) :
  estimate_emissions 0 "petrol" (Some 5) efficiency_km_per_l avg_speed_kmh
  = inr {| co_g := if is_infinity (co_g_per_km petrol avg_speed_kmh) then nan else 0;
           co2_kg := 11.55;
           co2_g_per_km := 0.0 |}.
Proof.
  unfold estimate_emissions.
  change (0 <? 0) with false. rewrite emission_factors_petrol. cbn [bind resolve_fuel_used ret].
  unfold co_g_per_km. cbn zeta. rewrite max_times_zero.
  f_equal. f_equal.
  destruct (is_infinity _); reflexivity.
Qed.

(** The rate is finite, and co_g is 0, when the speed is absent, zero,
    NaN or any finite speed up to the largest. *)
Lemma estimate_emissions_zero_distance_finite :
  Forall (fun avg_speed_kmh =>
            estimate_emissions 0 "petrol" (Some 5) None avg_speed_kmh
            = inr {| co_g := 0; co2_kg := 11.55; co2_g_per_km := 0.0 |})
    [None; Some 0; Some 50; Some 130.5; Some 0x1.fffffffffffffp+1023; Some nan].
Proof. repeat constructor. Qed.

(** C8 at avg_speed_kmh = Infinity, which the request model admits
    ([0 <= infinity]): co2_kg = 11.55 and co2_g_per_km = 0.0 as for every
    speed, but the CO rate is infinite, its product with the zero distance
    is NaN, and the estimator answers co_g = NaN where every other speed
    gives 0; the document then written does not meet the [co_g >= 0] of
    [EmissionReading]. *)
Lemma estimate_emissions_zero_distance_infinite_speed :
  let data := mkEstimateRequest "car" 0 (Some 5) None "petrol" (Some infinity) in
  request_valid data = true
  /\ co_g_per_km petrol (Some infinity) = infinity
  /\ estimate_emissions 0 "petrol" (Some 5) None (Some infinity)
     = inr {| co_g := nan; co2_kg := 11.55; co2_g_per_km := 0.0 |}
  /\ (nan =? 0) = false
  /\ exists resp,
       response_of data = inr resp
       /\ is_nan (resp_co_g resp) = true
       /\ EmissionReading_valid (document_of data resp) = false.
Proof. repeat split. eexists. repeat split. Qed.

(** ** A request that gives zero fuel *)

Lemma request_valid_fields (data : EstimateRequest) :
  request_valid data = true ->
  (distance_km data <? 0) = false
  /\ (fuel_type data = "petrol"%string \/ fuel_type data = "diesel"%string).
Proof.
  unfold request_valid. rewrite !andb_true_iff, orb_true_iff, !String.eqb_eq.
  intros [[[[Hd _] _] Hf] _]. split; [apply leb_zero_not_ltb; exact Hd | exact Hf].
Qed.

Lemma round_zero_product (f : float) (factors : Factors) :
  f = 0 \/ f = -0 -> factors = petrol \/ factors = diesel ->
  Py.round (f * co2_kg_per_l factors) 3 = 0 \/ Py.round (f * co2_kg_per_l factors) 3 = -0.
Proof. intros [-> | ->] [-> | ->]; [left|left|right|right]; reflexivity. Qed.

(** C10: a valid request that provides fuel_used_l = 0 is answered, with
    or without an efficiency, and the response has co2_kg = 0.0 (a zero of
    either sign, equal to 0.0 as floats compare). *)
Theorem estimate_zero_fuel (Store Exception : Type)
    (create_document : string -> Document -> Store -> (Exception + string) * Store)
    (data : EstimateRequest) (db : Store) (f : float) :
  request_valid data = true ->
  fuel_used_l data = Some f ->
  (f =? 0) = true ->
  exists resp,
    fst (estimate Store Exception create_document data db) = inr resp
    /\ (resp_co2_kg resp = 0 \/ resp_co2_kg resp = -0)
    /\ (resp_co2_kg resp =? 0.0) = true.
Proof.
  intros Hvalid Hfuel Hzero.
  destruct (request_valid_fields data Hvalid) as [Hd Hft].
  rewrite estimate_response. unfold response_of, estimate_emissions.
  rewrite Hd, Hfuel.
  assert (exists factors, emission_factors (fuel_type data) = inr factors
                          /\ (factors = petrol \/ factors = diesel)) as [factors [-> Hfac]].
  { destruct Hft as [-> | ->]; eexists; split; try reflexivity; tauto. }
  cbn [bind ret resolve_fuel_used co2_kg].
  eexists. split; [reflexivity|]. cbn [resp_co2_kg].
  destruct (round_zero_product f factors (eqb_zero_cases f Hzero) Hfac) as [-> | ->];
    split; try reflexivity; tauto.
Qed.

(** A diesel request with zero fuel and no efficiency, on a store whose
    insert raises. *)
Lemma estimate_zero_fuel_witness :
  let data := mkEstimateRequest "car" 12.5 (Some 0) None "diesel" None in
  request_valid data = true
  /\ exists resp,
       fst (estimate unit unit (fun _ _ db => (inl tt, db)) data tt) = inr resp
       /\ (resp_co2_kg resp = 0 \/ resp_co2_kg resp = -0)
       /\ (resp_co2_kg resp =? 0.0) = true.
Proof.
  split; [reflexivity|].
  apply (estimate_zero_fuel unit unit _ _ tt 0); reflexivity.
Defined.

(** ** Calendar: distinct days print differently *)

Module CalendarFacts.
Import Calendar.
Local Open Scope Z_scope.

Lemma year_of_era_range (doe : Z) : 0 <= doe < 146097 ->
  0 <= (doe - doe / 1460 + doe / 36524 - doe / 146096) / 365 < 400.
Proof. intros H. Z.to_euclidean_division_equations; lia. Qed.

Lemma day_of_year_range (doe : Z) : 0 <= doe < 146097 ->
  let yoe := (doe - doe / 1460 + doe / 36524 - doe / 146096) / 365 in
  0 <= doe - (365 * yoe + yoe / 4 - yoe / 100) <= 365.
Proof. intros H. cbn zeta. Z.to_euclidean_division_equations; lia. Qed.

Lemma month_index_range (doy : Z) : 0 <= doy <= 365 ->
  0 <= (5 * doy + 2) / 153 <= 11
  /\ 1 <= doy - (153 * ((5 * doy + 2) / 153) + 2) / 5 + 1 <= 31.
Proof. intros H. Z.to_euclidean_division_equations; lia. Qed.

(** Month and day of a day number are a calendar month and day. *)
Lemma civil_from_days_range (z : Z) :
  let '(y, m, d) := civil_from_days z in 1 <= m <= 12 /\ 1 <= d <= 31.
Proof.
  unfold civil_from_days. cbn zeta.
  set (doe := (z + 719468) mod 146097).
  assert (Hdoe : 0 <= doe < 146097) by (apply Z.mod_pos_bound; lia).
  pose proof (day_of_year_range doe Hdoe) as Hdoy. cbn zeta in Hdoy.
  set (doy := doe - _) in *.
  destruct (month_index_range doy Hdoy) as [Hmp Hd].
  split; [|exact Hd].
  destruct (Z.ltb_spec ((5 * doy + 2) / 153) 10); lia.
Qed.

Lemma days_from_civil_from_days (z : Z) : days_from_civil (civil_from_days z) = z.
Proof.
  unfold civil_from_days, days_from_civil. cbn zeta.
  set (doe := (z + 719468) mod 146097).
  assert (Hdoe : 0 <= doe < 146097) by (apply Z.mod_pos_bound; lia).
  pose proof (year_of_era_range doe Hdoe) as Hyoe.
  pose proof (day_of_year_range doe Hdoe) as Hdoy. cbn zeta in Hdoy.
  set (yoe := (doe - doe / 1460 + doe / 36524 - doe / 146096) / 365) in *.
  set (doy := doe - (365 * yoe + yoe / 4 - yoe / 100)) in *.
  destruct (month_index_range doy Hdoy) as [Hmp _].
  set (mp := (5 * doy + 2) / 153) in *.
  set (m := if mp <? 10 then mp + 3 else mp - 9).
  assert (Hm : (if 2 <? m then m - 3 else m + 9) = mp).
  { subst m. destruct (Z.ltb_spec mp 10).
    - destruct (Z.ltb_spec 2 (mp + 3)); lia.
    - destruct (Z.ltb_spec 2 (mp - 9)); lia. }
  rewrite Hm.
  replace (yoe + (z + 719468) / 146097 * 400 + (if m <=? 2 then 1 else 0)
           - (if m <=? 2 then 1 else 0))
    with (yoe + (z + 719468) / 146097 * 400) by lia.
  replace ((yoe + (z + 719468) / 146097 * 400) / 400) with ((z + 719468) / 146097)
    by (Z.to_euclidean_division_equations; lia).
  replace ((yoe + (z + 719468) / 146097 * 400) mod 400) with yoe
    by (Z.to_euclidean_division_equations; lia).
  pose proof (Z.div_mod (z + 719468) 146097 ltac:(lia)) as Hz. fold doe in Hz.
  subst doy. lia.
Qed.

Lemma civil_from_days_inj (z1 z2 : Z) :
  civil_from_days z1 = civil_from_days z2 -> z1 = z2.
Proof.
  intros Heq. rewrite <- (days_from_civil_from_days z1), Heq.
  apply days_from_civil_from_days.
Qed.

Lemma digit_inj (a b : Z) : 0 <= a <= 9 -> 0 <= b <= 9 -> digit a = digit b -> a = b.
Proof.
  unfold digit. intros Ha Hb Heq.
  apply (f_equal nat_of_ascii) in Heq.
  rewrite !nat_ascii_embedding in Heq by lia. lia.
Qed.

(** A number below 100 is determined by its two digits. *)
Lemma two_digits_inj (n1 n2 : Z) :
  0 <= n1 < 100 -> 0 <= n2 < 100 ->
  digit (n1 / 10) = digit (n2 / 10) -> digit (n1 mod 10) = digit (n2 mod 10) -> n1 = n2.
Proof.
  intros H1 H2 Hhi Hlo.
  apply digit_inj in Hhi; [|Z.to_euclidean_division_equations; lia ..].
  apply digit_inj in Hlo; [|Z.to_euclidean_division_equations; lia ..].
  Z.to_euclidean_division_equations; lia.
Qed.

Lemma year_digits_inj (y1 y2 : Z) : year_digits y1 = year_digits y2 -> y1 = y2.
Proof.
  unfold year_digits. intros Heq.
  apply (f_equal NilEmpty.int_of_string) in Heq.
  rewrite !NilEmpty.isi in Heq. injection Heq as Heq.
  apply DecimalZ.to_int_inj. exact Heq.
Qed.

Lemma append_cons (c : ascii) (s t : string) :
  String.append (String c s) t = String c (String.append s t).
Proof. reflexivity. Qed.

Lemma length_append (s t : string) :
  String.length (String.append s t) = (String.length s + String.length t)%nat.
Proof.
  induction s as [|c s IH]; [reflexivity|].
  rewrite append_cons. simpl. rewrite IH. reflexivity.
Qed.

(** Two concatenations with suffixes of one length agree part by part. *)
Lemma append_inj_suffix (s1 s2 t1 t2 : string) :
  String.length t1 = String.length t2 ->
  String.append s1 t1 = String.append s2 t2 -> s1 = s2 /\ t1 = t2.
Proof.
  revert s2. induction s1 as [|c s1 IH]; intros [|c' s2] Hlen Heq.
  - split; [reflexivity | exact Heq].
  - exfalso. apply (f_equal String.length) in Heq.
    rewrite !length_append in Heq. simpl in Heq. lia.
  - exfalso. apply (f_equal String.length) in Heq.
    rewrite !length_append in Heq. simpl in Heq. lia.
  - rewrite !append_cons in Heq. injection Heq as -> Heq.
    destruct (IH s2 Hlen Heq) as [-> ->]. split; reflexivity.
Qed.

(** Distinct days have distinct [%Y-%m-%d] strings. *)
Lemma format_date_inj (d1 d2 : Z) : format_date d1 = format_date d2 -> d1 = d2.
Proof.
  unfold format_date. intros Heq. apply civil_from_days_inj.
  pose proof (civil_from_days_range d1) as H1.
  pose proof (civil_from_days_range d2) as H2.
  destruct (civil_from_days d1) as [[y1 m1] dd1], (civil_from_days d2) as [[y2 m2] dd2].
  apply append_inj_suffix in Heq; [|reflexivity].
  destruct Heq as [Hy Heq]. apply year_digits_inj in Hy.
  cbv [String.append two_digits] in Heq.
  injection Heq as Hm_hi Hm_lo Hd_hi Hd_lo.
  rewrite Hy, (two_digits_inj m1 m2), (two_digits_inj dd1 dd2) by (assumption || lia).
  reflexivity.
Qed.

End CalendarFacts.

(** ** Day buckets *)

Section Buckets.

Variable now : Z.

(** The loop body applied to the readings of one key adds up their
    fields. *)
Lemma fold_add_to_bucket (sel : list Reading) (b : Bucket) :
  fold_left add_to_bucket sel b
  = {| b_trips := b_trips b + length sel;
       b_co_g := fold_left PrimFloat.add (map get_co_g sel) (b_co_g b);
       b_co2_kg := fold_left PrimFloat.add (map get_co2_kg sel) (b_co2_kg b);
       b_alerts := b_alerts b + length (List.filter get_alert sel) |}.
Proof.
  revert b. induction sel as [|d sel IH]; intros b.
  - destruct b. cbn. f_equal; lia.
  - cbn [fold_left]. rewrite IH. unfold add_to_bucket. cbn.
    destruct (get_alert d); cbn; f_equal; lia.
Qed.

(** After the loop, a key holds the accumulation of exactly the readings
    filed under it, and is missing when there are none. *)
Lemma fold_bucket_step_lookup (readings : list Reading) (m : gmap string Bucket) (k : string) :
  fold_left (bucket_step now) readings m !! k
  = match filed_under now k readings with
    | [] => m !! k
    | sel => Some (fold_left add_to_bucket sel (default empty_bucket (m !! k)))
    end.
Proof.
  revert m. induction readings as [|d readings IH]; intros m; [reflexivity|].
  cbn [fold_left filed_under List.filter]. rewrite IH. fold (filed_under now k readings).
  unfold bucket_step.
  destruct (String.eqb_spec (day_key now d) k) as [->|Hne].
  - rewrite lookup_insert_eq. cbn [default].
    destruct (filed_under now k readings); reflexivity.
  - rewrite lookup_insert_ne by exact Hne. reflexivity.
Qed.

Lemma build_buckets_lookup (readings : list Reading) (k : string) :
  build_buckets now readings !! k
  = match filed_under now k readings with
    | [] => None
    | sel => Some (fold_left add_to_bucket sel empty_bucket)
    end.
Proof.
  unfold build_buckets. rewrite fold_bucket_step_lookup, lookup_empty. reflexivity.
Qed.

(** An entry of the series reports the readings filed under its day. *)
Lemma day_entry_build_buckets (readings : list Reading) (k : string) :
  day_entry (build_buckets now readings) k
  = let sel := filed_under now k readings in
    {| day := k;
       trips := length sel;
       day_co_g := Py.round (fold_left PrimFloat.add (map get_co_g sel) 0) 2;
       day_co2_kg := Py.round (fold_left PrimFloat.add (map get_co2_kg sel) 0) 3;
       day_alerts := length (List.filter get_alert sel) |}.
Proof.
  unfold day_entry. rewrite build_buckets_lookup. cbn zeta.
  destruct (filed_under now k readings) as [|d sel]; [reflexivity|].
  rewrite fold_add_to_bucket. reflexivity.
Qed.

Lemma filed_under_date (date : Z) (readings : list Reading) :
  filed_under now (Calendar.format_date date) readings = on_date now date readings.
Proof.
  unfold filed_under, on_date. induction readings as [|d readings IH]; [reflexivity|].
  cbn [List.filter]. rewrite IH.
  replace (String.eqb (day_key now d) (Calendar.format_date date))
    with (date_of now d =? date)%Z; [reflexivity|].
  unfold day_key, Calendar.strftime_ymd. fold (date_of now d).
  destruct (Z.eqb_spec (date_of now d) date) as [->|Hne].
  - symmetry. apply String.eqb_refl.
  - symmetry. apply String.eqb_neq. intros Heq.
    apply CalendarFacts.format_date_inj in Heq. contradiction.
Qed.

End Buckets.

(** ** Weekly report *)

Lemma DAY_pos : (0 < Calendar.DAY)%Z.
Proof. reflexivity. Qed.

(** The seven day strings are those of seven consecutive dates. *)
Lemma days_consecutive (t : Z) :
  days t = map (fun i => Calendar.format_date (Calendar.utc_date t + Z.of_nat i)%Z) (seq 0 7).
Proof.
  unfold days. apply map_ext. intros i.
  unfold Calendar.strftime_ymd, Calendar.utc_date, Calendar.timedelta_days.
  rewrite Z.div_add by (pose proof DAY_pos; lia). reflexivity.
Qed.

Lemma by_day_analyse `{Summation} (now : Z) (readings : list Reading) :
  by_day (analyse now readings)
  = map (fun i => day_report now readings
                    (Calendar.utc_date (now - Calendar.timedelta_days 7) + Z.of_nat i)%Z)
        (seq 0 7).
Proof.
  unfold analyse. cbn [by_day]. rewrite days_consecutive, map_map.
  apply map_ext. intros i.
  rewrite day_entry_build_buckets, filed_under_date. reflexivity.
Qed.

(** A reading is counted on at most one of seven consecutive days, and on
    one exactly when its date is among them. *)
Lemma trips_in_series (now first : Z) (readings : list Reading) :
  list_sum (map (fun i => length (on_date now (first + Z.of_nat i)%Z readings)) (seq 0 7))
  = length (List.filter (fun d => in_series first (date_of now d)) readings).
Proof.
  induction readings as [|d readings IH]; [reflexivity|].
  unfold on_date, list_sum, in_series in *.
  cbn [seq map fold_right List.filter] in *.
  repeat match goal with
         | |- context [(?a =? ?b)%Z] => destruct (Z.eqb_spec a b)
         end;
    destruct (Z.leb_spec first (date_of now d));
    destruct (Z.leb_spec (date_of now d) (first + 6));
    cbn [andb length] in *; lia.
Qed.

Section Weekly.

Context `{Summation}.
Variables Store Exception : Type.
Variable find : string -> Filter -> Store -> Exception + list Reading.

(** C5: the series has seven entries, for the seven consecutive UTC dates
    that start at the date of [now - 7 days], in that order; each entry
    reports the readings of its date and is zero-filled when there are
    none; every queried reading counts in the summary, and the entries
    count those readings only whose date is one of the seven. *)
Theorem weekly_analysis_by_day (now : Z) (vehicle_id : option string) (db : Store) :
  let readings := query_readings Store Exception find now vehicle_id db in
  let report := weekly_analysis Store Exception find now vehicle_id db in
  let first := Calendar.utc_date (now - Calendar.timedelta_days 7) in
  length (by_day report) = 7%nat
  /\ map day (by_day report)
     = map (fun i => Calendar.format_date (first + Z.of_nat i)%Z) (seq 0 7)
  /\ by_day report = map (fun i => day_report now readings (first + Z.of_nat i)%Z) (seq 0 7)
  /\ (forall date, on_date now date readings = [] ->
        day_report now readings date = empty_day date)
  /\ (forall date1 date2, Calendar.format_date date1 = Calendar.format_date date2 ->
        date1 = date2)
  /\ total_trips (summary report) = length readings
  /\ list_sum (map trips (by_day report))
     = length (List.filter (fun d => in_series first (date_of now d)) readings).
Proof.
  cbn zeta. unfold weekly_analysis. rewrite by_day_analyse.
  split; [reflexivity|]. split; [rewrite map_map; reflexivity|].
  split; [reflexivity|]. split.
  { intros date Hnone. unfold day_report. rewrite Hnone. reflexivity. }
  split; [exact CalendarFacts.format_date_inj|]. split; [reflexivity|].
  rewrite map_map. cbn [trips day_report]. apply trips_in_series.
Qed.

End Weekly.

(** ** Storage failures *)

Lemma analyse_nil `{Summation} (now : Z) : analyse now [] = zero_report now.
Proof.
  transitivity {| summary := summary (analyse now []); by_day := by_day (analyse now []) |};
    [reflexivity|].
  rewrite by_day_analyse. unfold analyse, zero_report.
  cbn [summary map length List.filter Nat.ltb Nat.leb]. rewrite py_sum_nil. reflexivity.
Qed.

Section StorageFailures.

Context `{Summation}.
Variables Store Exception : Type.
Variable create_document : string -> Document -> Store -> (Exception + string) * Store.
Variable find : string -> Filter -> Store -> Exception + list Reading.

(** C6: whatever the insert does, raising included, [estimate] answers
    with the estimator's metrics and their alert; and when the query
    raises, [weekly_analysis] returns the report over no readings: an
    all-zero summary and seven zero-filled days. *)
Theorem storage_failures_not_surfaced (data : EstimateRequest) (now : Z)
    (vehicle_id : option string) (db : Store) :
  fst (estimate Store Exception create_document data db) = response_of data
  /\ (forall metrics,
        estimate_emissions (distance_km data) (fuel_type data) (fuel_used_l data)
          (efficiency_km_per_l data) (avg_speed_kmh data) = inr metrics ->
        exists resp,
          fst (estimate Store Exception create_document data db) = inr resp
          /\ resp_co_g resp = co_g metrics
          /\ resp_co2_kg resp = co2_kg metrics
          /\ resp_co2_g_per_km resp = co2_g_per_km metrics
          /\ (resp_alert resp, resp_reason resp)
             = check_thresholds (co_g metrics) (co2_g_per_km metrics))
  /\ (forall exc, find "emissionreading" (filter_q now vehicle_id) db = inl exc ->
        weekly_analysis Store Exception find now vehicle_id db = analyse now []
        /\ weekly_analysis Store Exception find now vehicle_id db = zero_report now).
Proof.
  split; [apply estimate_response|]. split.
  - intros metrics Hm. rewrite estimate_response. unfold response_of. rewrite Hm.
    eexists. split; [reflexivity|].
    cbn [resp_co_g resp_co2_kg resp_co2_g_per_km resp_alert resp_reason].
    destruct (check_thresholds _ _); repeat split; reflexivity.
  - intros exc Hfind. unfold weekly_analysis, query_readings. rewrite Hfind.
    split; [reflexivity | apply analyse_nil].
Qed.


End StorageFailures.

(** ** A week on the in-memory store *)

Section WeekExample.

Local Open Scope Z_scope.

(** 2026-11-04T01:00:00Z. *)
Let now : Z := 20761 * Calendar.DAY + 3600 * 1000000.

Let reading (vid : string) (co_g co2_kg : float) (alert : bool) (at_ : Z) : Reading :=
  mkReading (Some vid) (Some co_g) (Some co2_kg) (Some alert) (Some at_).

(** Two trips two days ago, one at the very start of the window, one a
    microsecond before it, one today and one of another vehicle. *)
Let store : list Reading :=
  [ reading "car" 120.0 23.1 true (now - 2 * Calendar.DAY);
    reading "car" 8.0 1.34 false (now - 2 * Calendar.DAY - 5);
    reading "car" 1.0 2.0 false (now - 7 * Calendar.DAY);
    reading "car" 1.0 2.0 true (now - 7 * Calendar.DAY - 1);
    reading "car" 14.0 2.31 false now;
    reading "van" 30.0 5.0 true (now - Calendar.DAY) ].

(** The reading at the lower bound is kept and the one before it is not;
    today's reading counts in the summary and in no day of the series,
    which ends yesterday. *)
Example weekly_analysis_on_store :
  let report := weekly_analysis (list Reading) Empty_set memory_find now (Some "car"%string) store in
  summary report
  = {| total_trips := 4; total_co_g := 143.0; total_co2_kg := 28.75;
       avg_co_g := 35.75; avg_co2_kg := 7.188; alerts := 1 |}
  /\ map day (by_day report)
     = ["2026-10-28"; "2026-10-29"; "2026-10-30"; "2026-10-31";
        "2026-11-01"; "2026-11-02"; "2026-11-03"]%string
  /\ map trips (by_day report) = [1; 0; 0; 0; 0; 2; 0]%nat
  /\ map day_co_g (by_day report) = [1.0; 0.0; 0.0; 0.0; 0.0; 128.0; 0.0]%float
  /\ map day_co2_kg (by_day report) = [2.0; 0.0; 0.0; 0.0; 0.0; 24.44; 0.0]%float
  /\ map day_alerts (by_day report) = [0; 0; 0; 0; 0; 1; 0]%nat
  /\ total_trips (summary (weekly_analysis (list Reading) Empty_set memory_find now None store))
     = 5%nat.
Proof. vm_compute. repeat split. Qed.

End WeekExample.

(** * Further properties of the code *)

(** ** Signs of binary64 results *)

Module FloatSign.

Lemma signed_not_negative (x : spec_float) : sf_signed false x -> sf_not_negative x.
Proof. destruct x; cbn; auto. Qed.

Lemma above_zero_not_negative (x : spec_float) : sf_above_zero x -> sf_not_negative x.
Proof. destruct x; cbn; tauto. Qed.

Lemma not_negative_ltb (x : float) : (x <? 0) = false <-> sf_not_negative (Prim2SF x).
Proof.
  rewrite FloatAxioms.ltb_spec, Prim2SF_zero.
  destruct (Prim2SF x) as [[|]|[|]| |[|] m e]; cbn; intuition congruence.
Qed.

Lemma above_zero_ltb (x : float) : (0 <? x) = true <-> sf_above_zero (Prim2SF x).
Proof.
  rewrite FloatAxioms.ltb_spec, Prim2SF_zero.
  destruct (Prim2SF x) as [[|]|[|]| |[|] m e]; cbn; intuition congruence.
Qed.

Lemma leb_zero_not_negative (x : float) : (0 <=? x) = true -> sf_not_negative (Prim2SF x).
Proof.
  rewrite FloatAxioms.leb_spec, Prim2SF_zero.
  destruct (Prim2SF x) as [[|]|[|]| |[|] m e]; cbn; intuition congruence.
Qed.

(** Not below zero and not NaN is [0 <= x]. *)
Lemma not_negative_leb (x : float) :
  sf_not_negative (Prim2SF x) -> Prim2SF x <> S754_nan -> (0 <=? x) = true.
Proof.
  rewrite FloatAxioms.leb_spec, Prim2SF_zero.
  destruct (Prim2SF x) as [[|]|[|]| |[|] m e]; cbn; intuition congruence.
Qed.

(** Rounding keeps the sign it is given. *)
Lemma binary_round_aux_signed (s : bool) (m e : Z) (l : location) :
  sf_signed s (binary_round_aux prec emax s m e l).
Proof.
  unfold binary_round_aux.
  destruct (shr_fexp prec emax m e l) as [mrs e'].
  destruct (shr_fexp prec emax _ e' loc_Exact) as [mrs' e''].
  destruct (shr_m mrs'); [reflexivity | | exact I].
  destruct (e'' <=? emax - prec)%Z; reflexivity.
Qed.

Lemma binary_round_signed (s : bool) (m : positive) (e : Z) :
  sf_signed s (binary_round prec emax s m e).
Proof.
  unfold binary_round. destruct (shl_align _ _ _) as [mz ez].
  apply binary_round_aux_signed.
Qed.

Lemma SFldexp_signed (s : bool) (x : spec_float) (e : Z) :
  sf_signed s x -> sf_signed s (SFldexp prec emax x e).
Proof.
  destruct x as [s'|s'| |s' m ex]; cbn; auto.
  intros ->. apply binary_round_signed.
Qed.

(** The product of two values not below zero is not below zero. *)
Lemma SFmul_not_negative (x y : spec_float) :
  sf_not_negative x -> sf_not_negative y -> sf_not_negative (SFmul prec emax x y).
Proof.
  destruct x as [sx|sx| |sx mx ex], y as [sy|sy| |sy my ey]; cbn;
    try tauto; try (intros; subst; reflexivity).
  intros -> ->. apply signed_not_negative, binary_round_aux_signed.
Qed.

(** The quotient of a value not below zero by one above zero is not below
    zero. *)
Lemma SFdiv_not_negative (x y : spec_float) :
  sf_not_negative x -> sf_above_zero y -> sf_not_negative (SFdiv prec emax x y).
Proof.
  destruct x as [sx|sx| |sx mx ex], y as [sy|sy| |sy my ey]; cbn;
    try tauto; try (intros; subst; reflexivity).
  intros -> ->. destruct (SFdiv_core_binary _ _ _ _ _ _) as [[mz ez] lz].
  apply signed_not_negative, binary_round_aux_signed.
Qed.

Lemma mul_not_negative (x y : float) :
  (x <? 0) = false -> (y <? 0) = false -> (x * y <? 0) = false.
Proof.
  rewrite !not_negative_ltb, FloatAxioms.mul_spec. apply SFmul_not_negative.
Qed.

Lemma div_not_negative (x y : float) :
  (x <? 0) = false -> (0 <? y) = true -> (x / y <? 0) = false.
Proof.
  rewrite !not_negative_ltb, above_zero_ltb, FloatAxioms.div_spec. apply SFdiv_not_negative.
Qed.

(** The float of a specification float of positive sign is not below
    zero. *)
Lemma SF2Prim_signed (x : spec_float) :
  sf_signed false x -> sf_not_negative (Prim2SF (SF2Prim x)).
Proof.
  destruct x as [s|s| |s m e]; cbn [sf_signed]; try (intros ->); try exact I.
  - reflexivity.
  - reflexivity.
  - cbn [SF2Prim]. rewrite Z_ldexp_spec, of_uint63_spec.
    apply signed_not_negative, SFldexp_signed.
    pose proof (Uint63.to_Z_bounded (Uint63.of_Z (Z.pos m))) as Hb.
    destruct (Uint63.to_Z _); [reflexivity | apply binary_round_signed | lia].
Qed.

(** [round] never turns a value not below zero into one below zero. *)
Lemma round_not_negative (x : float) (ndigits : nat) :
  (x <? 0) = false -> (Py.round x ndigits <? 0) = false.
Proof.
  rewrite !not_negative_ltb. unfold Py.round.
  destruct (Prim2SF x) as [s|s| |s m e] eqn:Hx; cbn [sf_not_negative];
    try (intros _; rewrite Hx; cbn; auto; fail).
  - intros ->. rewrite Hx. reflexivity.
  - intros ->. destruct (Py.scaled_digits m e ndigits); try reflexivity.
    apply SF2Prim_signed. cbn [SFdiv].
    destruct (SFdiv_core_binary _ _ _ _ _ _) as [[mz ez] lz].
    apply binary_round_aux_signed.
Qed.

End FloatSign.

(** ** More on the estimator *)

Section EstimatorFacts.

Import FloatSign.

Lemma SFltb_SFleb (a b : spec_float) : SFltb a b = true -> SFleb a b = true.
Proof. unfold SFltb, SFleb. destruct (SFcompare a b) as [[ | | ]|]; congruence. Qed.

(** X3: whatever the factors and the speed, the CO rate per kilometre is
    a number, and at least 0.2. *)
Theorem co_g_per_km_floor (factors : Factors) (avg_speed_kmh : option float) :
  (0.2 <=? co_g_per_km factors avg_speed_kmh) = true.
Proof.
  unfold co_g_per_km, Py.max. cbn zeta.
  destruct (0.2 <? _) eqn:Hlt; [|reflexivity].
  rewrite FloatAxioms.ltb_spec in Hlt. rewrite FloatAxioms.leb_spec.
  apply SFltb_SFleb. exact Hlt.
Qed.

Lemma co_g_per_km_above_zero (factors : Factors) (avg_speed_kmh : option float) :
  (0 <? co_g_per_km factors avg_speed_kmh) = true.
Proof.
  apply above_zero_ltb. unfold co_g_per_km, Py.max. cbn zeta.
  destruct (0.2 <? _) eqn:Hlt; [|reflexivity].
  rewrite FloatAxioms.ltb_spec in Hlt.
  destruct (ltb_pos_class _ _ _ Hlt) as [-> | [m [e ->]]]; reflexivity.
Qed.

Lemma above_zero_not_below (x : float) : (0 <? x) = true -> (x <? 0) = false.
Proof.
  rewrite above_zero_ltb, not_negative_ltb. apply above_zero_not_negative.
Qed.

Lemma factor_above_zero (fuel_type : string) :
  (0 <? co2_kg_per_l (if String.eqb (Str.lower fuel_type) "petrol" then petrol else diesel))
  = true.
Proof. destruct (String.eqb _ _); reflexivity. Qed.

(** The signs of the three metrics, from the estimator's own checks and a
    given fuel that is not below zero. *)
Lemma metrics_signs (distance_km : float) (fuel_type : string)
    (fuel_used_l efficiency_km_per_l avg_speed_kmh : option float) (m : Metrics) :
  (forall f, fuel_used_l = Some f -> (f <? 0) = false) ->
  estimate_emissions distance_km fuel_type fuel_used_l efficiency_km_per_l avg_speed_kmh
  = inr m ->
  (co_g m <? 0) = false /\ (co2_kg m <? 0) = false /\ (co2_g_per_km m <? 0) = false.
Proof.
  intros Hfuel. unfold estimate_emissions.
  destruct (distance_km <? 0) eqn:Hd; [discriminate|].
  destruct (known_fuel_dec fuel_type) as [Hk|Hk];
    [rewrite (emission_factors_known _ Hk) | rewrite (emission_factors_unknown _ Hk); discriminate].
  cbn [bind].
  set (factors := if String.eqb _ _ then petrol else diesel).
  assert (Hfac : (co2_kg_per_l factors <? 0) = false)
    by apply above_zero_not_below, factor_above_zero.
  assert (exists fuel,
            resolve_fuel_used distance_km fuel_used_l efficiency_km_per_l = inr fuel
            /\ (fuel <? 0) = false
          \/ exists e, resolve_fuel_used distance_km fuel_used_l efficiency_km_per_l = inl e)
    as [fuel [[-> Hpos] | [e ->]]]; [| |discriminate].
  { unfold resolve_fuel_used. destruct fuel_used_l as [f|].
    - exists f. left. split; [reflexivity | apply Hfuel; reflexivity].
    - destruct efficiency_km_per_l as [eff|]; [|exists 0; right; eauto].
      destruct (Py.truthy eff); cbn [andb]; [|exists 0; right; eauto].
      destruct (0 <? eff) eqn:He; [|exists 0; right; eauto].
      exists (distance_km / eff). left. split; [reflexivity|].
      apply div_not_negative; assumption. }
  cbn [bind ret]. intros [= <-]. cbn [co_g co2_kg co2_g_per_km].
  repeat split; apply round_not_negative.
  - apply mul_not_negative; [apply above_zero_not_below, co_g_per_km_above_zero | exact Hd].
  - apply mul_not_negative; assumption.
  - destruct (0 <? distance_km) eqn:Hd'; [|reflexivity].
    apply div_not_negative; [|exact Hd'].
    apply mul_not_negative; [apply mul_not_negative; assumption | reflexivity].
Qed.

(** X4: when the estimator answers and the fuel, if given, is not below
    zero, none of co_g, co2_kg and co2_g_per_km is below zero. *)
Theorem estimate_emissions_not_negative (distance_km : float) (fuel_type : string)
    (fuel_used_l efficiency_km_per_l avg_speed_kmh : option float) (m : Metrics) :
  (forall f, fuel_used_l = Some f -> (f <? 0) = false) ->
  estimate_emissions distance_km fuel_type fuel_used_l efficiency_km_per_l avg_speed_kmh
  = inr m ->
  (co_g m <? 0) = false /\ (co2_kg m <? 0) = false /\ (co2_g_per_km m <? 0) = false.
Proof. apply metrics_signs. Qed.

Lemma estimate_emissions_not_negative_witness :
  let m := {| co_g := 8.0; co2_kg := 1.34; co2_g_per_km := 134.0 |} in
  (co_g m <? 0) = false /\ (co2_kg m <? 0) = false /\ (co2_g_per_km m <? 0) = false.
Proof.
  apply (estimate_emissions_not_negative 10 "diesel" None (Some 20) (Some 50)).
  - discriminate.
  - vm_compute. reflexivity.
Defined.

(** The estimator itself does not check the given fuel: below zero, it
    yields a co2_kg below zero. *)
Example estimate_emissions_negative_fuel :
  estimate_emissions 10 "petrol" (Some (-1)) None None
  = inr {| co_g := 14.0; co2_kg := -2.31; co2_g_per_km := -231.0 |}.
Proof. vm_compute. reflexivity. Qed.

End EstimatorFacts.

(** ** Which failure is reported, and what each input can change *)

(** X1: the checks are made in the order distance, fuel type, fuel: a
    distance below zero is reported whatever the other inputs are, and an
    unknown fuel type is reported before a missing fuel. *)
Theorem estimate_emissions_first_failure (distance_km : float) (fuel_type : string)
    (fuel_used_l efficiency_km_per_l avg_speed_kmh : option float) :
  let result :=
    estimate_emissions distance_km fuel_type fuel_used_l efficiency_km_per_l avg_speed_kmh in
  ((distance_km <? 0) = true ->
   result = inl (mkHTTPException 400 "distance_km must be >= 0"))
  /\ ((distance_km <? 0) = false -> ~ known_fuel fuel_type ->
      result = inl (mkHTTPException 400 "fuel_type must be 'petrol' or 'diesel'"))
  /\ (forall e, result = inl e ->
        e = mkHTTPException 400 "distance_km must be >= 0"
        \/ e = mkHTTPException 400 "fuel_type must be 'petrol' or 'diesel'"
        \/ e = missing_fuel).
Proof.
  cbn zeta. unfold estimate_emissions.
  destruct (distance_km <? 0) eqn:Hd.
  { split; [reflexivity|]. split; [discriminate|]. intros e [= <-]. left. reflexivity. }
  split; [discriminate|].
  destruct (known_fuel_dec fuel_type) as [Hk|Hk].
  - rewrite (emission_factors_known _ Hk). cbn [bind].
    split; [tauto|]. intros e.
    destruct (fuel_derivable_dec fuel_used_l efficiency_km_per_l) as [Hf|Hf].
    + destruct (resolve_fuel_used_derivable distance_km _ _ Hf) as [fuel ->]. discriminate.
    + rewrite (resolve_fuel_used_missing distance_km _ _ Hf). intros [= <-]. tauto.
  - rewrite (emission_factors_unknown _ Hk). cbn [bind].
    split; [reflexivity|]. intros e [= <-]. tauto.
Qed.

(** X5: the speed changes neither the outcome nor the two CO2 figures,
    and the fuel, given or derived, does not change co_g. *)
Theorem estimate_emissions_separation (distance_km : float) (fuel_type : string) :
  (forall fuel_used_l efficiency_km_per_l speed1 speed2,
     match estimate_emissions distance_km fuel_type fuel_used_l efficiency_km_per_l speed1,
           estimate_emissions distance_km fuel_type fuel_used_l efficiency_km_per_l speed2 with
     | inr m1, inr m2 => co2_kg m1 = co2_kg m2 /\ co2_g_per_km m1 = co2_g_per_km m2
     | inl e1, inl e2 => e1 = e2
     | _, _ => False
     end)
  /\ (forall fuel1 eff1 fuel2 eff2 avg_speed_kmh m1 m2,
        estimate_emissions distance_km fuel_type fuel1 eff1 avg_speed_kmh = inr m1 ->
        estimate_emissions distance_km fuel_type fuel2 eff2 avg_speed_kmh = inr m2 ->
        co_g m1 = co_g m2).
Proof.
  unfold estimate_emissions. split.
  - intros fu eff sp1 sp2.
    destruct (distance_km <? 0); [reflexivity|].
    destruct (emission_factors fuel_type) as [e|factors]; [reflexivity|]. cbn [bind].
    destruct (resolve_fuel_used distance_km fu eff) as [e|fuel]; [reflexivity|].
    split; reflexivity.
  - intros fu1 eff1 fu2 eff2 sp m1 m2.
    destruct (distance_km <? 0); [discriminate|].
    destruct (emission_factors fuel_type) as [e|factors]; [discriminate|]. cbn [bind].
    destruct (resolve_fuel_used distance_km fu1 eff1) as [e|f1]; [discriminate|].
    destruct (resolve_fuel_used distance_km fu2 eff2) as [e|f2]; [discriminate|].
    intros [= <-] [= <-]. reflexivity.
Qed.

Lemma add_nan (x : float) : x + nan = nan.
Proof.
  apply Prim2SF_inj. rewrite FloatAxioms.add_spec. change (Prim2SF nan) with S754_nan.
  destruct (Prim2SF x); reflexivity.
Qed.

(** X2: the CO rate is computed from the provided speed when that is not
    a zero, and from 40.0 when it is a zero of either sign, as when it is
    absent; a NaN speed is used as provided and yields the floor of 0.2. *)
Theorem co_g_per_km_speed_cases (factors : Factors) :
  (forall v, (v =? 0) = false ->
     co_g_per_km factors (Some v)
     = Py.max 0.2 (co_base_g_per_km factors + 0.02 * abs (v - 50)))
  /\ (forall v, (v =? 0) = true ->
        co_g_per_km factors (Some v) = co_g_per_km factors None)
  /\ co_g_per_km factors None
     = Py.max 0.2 (co_base_g_per_km factors + 0.02 * abs (40.0 - 50))
  /\ co_g_per_km factors (Some nan) = 0.2.
Proof.
  unfold co_g_per_km. cbn zeta. repeat split.
  - intros v Hv. rewrite speed_provided_nonzero; [reflexivity|].
    unfold Py.truthy. rewrite Hv. reflexivity.
  - intros v Hv. rewrite (speed_provided_zero v Hv). reflexivity.
  - change (0.02 * abs (speed (Some nan) - 50)) with nan. rewrite add_nan. reflexivity.
Qed.

(** ** Thresholds grow with the figures *)

(** Comparison of specification floats: below, then at most, is below. *)
Lemma SFltb_SFleb_trans (a b c : spec_float) :
  SFltb a b = true -> SFleb b c = true -> SFltb a c = true.
Proof.
  unfold SFltb, SFleb.
  destruct a as [[|]|[|]| |[|] ma ea], b as [[|]|[|]| |[|] mb eb], c as [[|]|[|]| |[|] mc ec];
    cbn; try congruence;
    change (Pos.compare_cont Eq) with Pos.compare;
    destruct (Z.compare_spec ea eb), (Z.compare_spec eb ec), (Z.compare_spec ea ec);
    try lia; try congruence; subst;
    destruct (Pos.compare_spec ma mb), (Pos.compare_spec mb mc), (Pos.compare_spec ma mc);
    cbn; try lia; congruence.
Qed.

Lemma ltb_leb_trans (x y z : float) :
  (x <? y) = true -> (y <=? z) = true -> (x <? z) = true.
Proof.
  rewrite !FloatAxioms.ltb_spec, FloatAxioms.leb_spec. apply SFltb_SFleb_trans.
Qed.

(** X6: figures that are at least as high raise at least the same alert:
    every rule that fired still fires. *)
Theorem check_thresholds_monotone (co_g co_g' co2_g_per_km co2_g_per_km' : float) :
  (co_g <=? co_g') = true ->
  (co2_g_per_km <=? co2_g_per_km') = true ->
  (fst (check_thresholds co_g co2_g_per_km) = true ->
   fst (check_thresholds co_g' co2_g_per_km') = true)
  /\ (forall rule, In rule (fired_rules co_g co2_g_per_km) ->
        In rule (fired_rules co_g' co2_g_per_km')).
Proof.
  intros Hco Hco2.
  assert (A : (180 <? co2_g_per_km) = true -> (180 <? co2_g_per_km') = true)
    by (intros H; exact (ltb_leb_trans _ _ _ H Hco2)).
  assert (B : (20 <? co_g) = true -> (20 <? co_g') = true)
    by (intros H; exact (ltb_leb_trans _ _ _ H Hco)).
  unfold check_thresholds, fired_rules.
  destruct (180 <? co2_g_per_km), (20 <? co_g), (180 <? co2_g_per_km'), (20 <? co_g');
    try (specialize (A eq_refl); discriminate A);
    try (specialize (B eq_refl); discriminate B);
    cbn; intuition discriminate.
Qed.

Lemma check_thresholds_monotone_witness :
  (fst (check_thresholds 25.0 100.0) = true -> fst (check_thresholds 30.0 200.0) = true)
  /\ (forall rule, In rule (fired_rules 25.0 100.0) -> In rule (fired_rules 30.0 200.0)).
Proof. apply check_thresholds_monotone; reflexivity. Defined.

(** ** Requests the route rejects, zero distances and letter case *)

(** X16: a request that meets the [Field] constraints is rejected exactly
    when it gives neither [fuel_used_l] nor [efficiency_km_per_l], and then
    with the missing-fuel exception. *)
Theorem valid_request_rejected (data : EstimateRequest) :
  request_valid data = true ->
  (response_of data = inl missing_fuel
   <-> fuel_used_l data = None /\ efficiency_km_per_l data = None)
  /\ ((exists resp, response_of data = inr resp)
      <-> (exists f, fuel_used_l data = Some f) \/ (exists e, efficiency_km_per_l data = Some e)).
Proof.
  intros Hvalid. destruct (request_valid_fields data Hvalid) as [Hd Hft].
  assert (Heff : forall e, efficiency_km_per_l data = Some e -> (0 <? e) = true).
  { intros e He. unfold request_valid in Hvalid. rewrite He in Hvalid. cbn in Hvalid.
    destruct (0 <? e); [reflexivity|]. rewrite !andb_false_r in Hvalid. discriminate. }
  unfold response_of, estimate_emissions. rewrite Hd.
  assert (exists factors, emission_factors (fuel_type data) = inr factors) as [factors ->]
    by (destruct Hft as [-> | ->]; eexists; reflexivity).
  cbn [bind]. unfold resolve_fuel_used.
  destruct (fuel_used_l data) as [f|].
  { cbn [bind ret]. split; split; try discriminate; eauto; intros [? _]; discriminate. }
  destruct (efficiency_km_per_l data) as [e|].
  { rewrite (ltb_zero_truthy e (Heff e eq_refl)), (Heff e eq_refl). cbn [andb bind ret].
    split; split; try discriminate; eauto; intros [_ ?]; discriminate. }
  cbn [bind]. split; split; try tauto.
  - intros [resp Hr]. discriminate Hr.
  - intros [[f Hf] | [e He]]; discriminate.
Qed.

Lemma valid_request_rejected_witness :
  let data := mkEstimateRequest "car" 12.5 None None "petrol" (Some 60) in
  (response_of data = inl missing_fuel
   <-> fuel_used_l data = None /\ efficiency_km_per_l data = None)
  /\ ((exists resp, response_of data = inr resp)
      <-> (exists f, fuel_used_l data = Some f) \/ (exists e, efficiency_km_per_l data = Some e)).
Proof. apply valid_request_rejected. reflexivity. Defined.

(** X17: when the distance is zero the division by it is not made: an
    answered estimate has co2_g_per_km = 0.0, whatever the fuel. *)
Theorem zero_distance_intensity (distance_km : float) (fuel_type : string)
    (fuel_used_l efficiency_km_per_l avg_speed_kmh : option float) (m : Metrics) :
  (distance_km =? 0) = true ->
  estimate_emissions distance_km fuel_type fuel_used_l efficiency_km_per_l avg_speed_kmh
  = inr m ->
  co2_g_per_km m = 0.0.
Proof.
  intros Hz. unfold estimate_emissions.
  assert ((distance_km <? 0) = false /\ (0 <? distance_km) = false) as [-> Hgt]
    by (destruct (eqb_zero_cases _ Hz) as [-> | ->]; split; reflexivity).
  destruct (emission_factors fuel_type) as [e|factors]; [discriminate|]. cbn [bind].
  destruct (resolve_fuel_used _ _ _) as [e|fuel]; [discriminate|]. cbn [bind ret].
  rewrite Hgt. intros [= <-]. reflexivity.
Qed.

Lemma zero_distance_intensity_witness :
  co2_g_per_km {| co_g := -0; co2_kg := 18.76; co2_g_per_km := 0.0 |} = 0.0.
Proof.
  apply (zero_distance_intensity (-0) "Diesel" (Some 7) None (Some 30));
    [reflexivity | vm_compute; reflexivity].
Defined.

Lemma lower_ascii_idempotent (c : ascii) :
  Str.lower_ascii (Str.lower_ascii c) = Str.lower_ascii c.
Proof. destruct c as [[] [] [] [] [] [] [] []]; reflexivity. Qed.

Lemma lower_idempotent (s : string) : Str.lower (Str.lower s) = Str.lower s.
Proof.
  induction s as [|c s IH]; [reflexivity|].
  cbn [Str.lower]. rewrite lower_ascii_idempotent, IH. reflexivity.
Qed.

(** X18: the factor table is looked up without regard to letter case: a
    fuel type and its lower-cased form get the same answer, which is the
    petrol row, the diesel row or the exception. *)
Theorem emission_factors_case (fuel_type : string) :
  emission_factors fuel_type = emission_factors (Str.lower fuel_type)
  /\ (emission_factors fuel_type = inr petrol <-> Str.lower fuel_type = "petrol"%string)
  /\ (emission_factors fuel_type = inr diesel <-> Str.lower fuel_type = "diesel"%string)
  /\ (emission_factors fuel_type = inr petrol
      \/ emission_factors fuel_type = inr diesel
      \/ emission_factors fuel_type
         = inl (mkHTTPException 400 "fuel_type must be 'petrol' or 'diesel'")).
Proof.
  unfold emission_factors. cbn zeta. rewrite lower_idempotent.
  split; [reflexivity|].
  destruct (String.eqb_spec (Str.lower fuel_type) "petrol") as [->|Hp].
  { cbn. repeat split; try tauto; discriminate. }
  destruct (String.eqb_spec (Str.lower fuel_type) "diesel") as [->|Hd].
  { cbn. repeat split; try tauto; discriminate. }
  cbn. repeat split; try tauto; discriminate.
Qed.

(** ** What [estimate] writes *)

(** X7: a rejected request leaves the store as it was; an accepted one
    makes one insert, into "emissionreading", of the request's fields with
    the metrics, alert and reason of the response, and the store is what
    that insert leaves, whether it raised or not. *)
Theorem estimate_store_effect (Store Exception : Type)
    (create_document : string -> Document -> Store -> (Exception + string) * Store)
    (data : EstimateRequest) (db : Store) :
  snd (estimate Store Exception create_document data db)
  = match response_of data with
    | inl _ => db
    | inr resp => snd (create_document "emissionreading" (document_of data resp) db)
    end.
Proof.
  unfold estimate, response_of, document_of, bind, ret.
  destruct (estimate_emissions _ _ _ _ _) as [e|metrics]; [reflexivity|].
  destruct (check_thresholds _ _) as [alert reason]. cbn.
  destruct (create_document _ _ _) as [[exc|id] db']; reflexivity.
Qed.

Lemma is_nan_Prim2SF (x : float) : is_nan x = false <-> Prim2SF x <> S754_nan.
Proof.
  unfold is_nan. rewrite FloatAxioms.eqb_spec. unfold SFeqb.
  destruct (Prim2SF x) as [[|]|[|]| |[|] m e]; cbn;
    rewrite ?Z.compare_refl; fold (Pos.compare m m) || idtac;
    rewrite ?Pos.compare_refl; cbn; intuition congruence.
Qed.

(** For a float that is not below zero, [0 <= x] says that it is a
    number. *)
Lemma leb_zero_iff_number (x : float) :
  (x <? 0) = false -> ((0 <=? x) = true <-> is_nan x = false).
Proof.
  intros Hx. rewrite is_nan_Prim2SF. split.
  - rewrite FloatAxioms.leb_spec, Prim2SF_zero.
    destruct (Prim2SF x); cbn; congruence.
  - apply FloatSign.not_negative_leb, FloatSign.not_negative_ltb, Hx.
Qed.

(** X8: the document written for a valid request meets the
    [EmissionReading] schema exactly when none of its three metrics is
    NaN; no metric is ever below zero. *)
Theorem stored_document_meets_schema (data : EstimateRequest) (resp : EstimateResponse) :
  request_valid data = true ->
  response_of data = inr resp ->
  (EmissionReading_valid (document_of data resp) = true
   <-> is_nan (resp_co_g resp) = false
       /\ is_nan (resp_co2_kg resp) = false
       /\ is_nan (resp_co2_g_per_km resp) = false).
Proof.
  intros Hvalid. unfold response_of.
  destruct (estimate_emissions _ _ _ _ _) as [e|m] eqn:Hm; [discriminate|].
  cbn [bind ret]. intros [= <-].
  unfold EmissionReading_valid, document_of.
  cbn [doc_distance_km doc_fuel_used_l doc_efficiency_km_per_l doc_fuel_type
       doc_avg_speed_kmh doc_co_g doc_co2_kg doc_co2_g_per_km
       resp_co_g resp_co2_kg resp_co2_g_per_km].
  assert (Hfuel : forall f, fuel_used_l data = Some f -> (f <? 0) = false).
  { intros f Hf. unfold request_valid in Hvalid. rewrite Hf in Hvalid. cbn in Hvalid.
    apply leb_zero_not_ltb.
    destruct (0 <=? f); [reflexivity|]. rewrite !andb_false_r in Hvalid. discriminate. }
  destruct (metrics_signs _ _ _ _ _ m Hfuel Hm) as [H1 [H2 H3]].
  unfold request_valid in Hvalid. rewrite Hvalid. cbn [andb].
  rewrite !andb_true_iff, (leb_zero_iff_number _ H1), (leb_zero_iff_number _ H2),
    (leb_zero_iff_number _ H3). tauto.
Qed.

Lemma stored_document_meets_schema_witness :
  let data := mkEstimateRequest "car" 10 None (Some 20) "diesel" (Some 50) in
  let resp := mkEstimateResponse 8.0 1.34 134.0 false None in
  EmissionReading_valid (document_of data resp) = true
  <-> is_nan (resp_co_g resp) = false
      /\ is_nan (resp_co2_kg resp) = false
      /\ is_nan (resp_co2_g_per_km resp) = false.
Proof.
  apply stored_document_meets_schema; [reflexivity | vm_compute; reflexivity].
Defined.

(** A valid request whose document does not meet the schema: zero
    distance at an infinite speed gives co_g = NaN. *)
Example stored_document_nan :
  let data := mkEstimateRequest "car" 0 (Some 5) None "petrol" (Some infinity) in
  request_valid data = true
  /\ exists resp, response_of data = inr resp
                  /\ EmissionReading_valid (document_of data resp) = false.
Proof. split; [reflexivity|]. eexists. split; reflexivity. Qed.

(** ** More on the weekly report *)

(** X9: two readings are filed under the same day key exactly when they
    have the same UTC date, a reading without a usable [created_at] having
    the date of [now]. *)
Theorem day_key_same_date (now : Z) (d1 d2 : Reading) :
  day_key now d1 = day_key now d2 <-> date_of now d1 = date_of now d2.
Proof.
  unfold day_key, Calendar.strftime_ymd, date_of. split.
  - apply CalendarFacts.format_date_inj.
  - intros ->. reflexivity.
Qed.

Lemma utc_date_week_before (now : Z) :
  (Calendar.utc_date (now - Calendar.timedelta_days 7) = Calendar.utc_date now - 7)%Z.
Proof.
  unfold Calendar.utc_date, Calendar.timedelta_days.
  replace (now - 7 * Calendar.DAY)%Z with (now + (-7) * Calendar.DAY)%Z by lia.
  rewrite Z.div_add by (pose proof DAY_pos; lia). lia.
Qed.

Lemma utc_date_monotone (t1 t2 : Z) :
  (t1 <= t2)%Z -> (Calendar.utc_date t1 <= Calendar.utc_date t2)%Z.
Proof. intros Hle. apply Z.div_le_mono; [exact DAY_pos | exact Hle]. Qed.

(** The alerts among the readings of a date are the readings of that date
    among the alerts. *)
Lemma on_date_alerts (now date : Z) (readings : list Reading) :
  on_date now date (List.filter get_alert readings)
  = List.filter get_alert (on_date now date readings).
Proof.
  unfold on_date. induction readings as [|d readings IH]; [reflexivity|].
  cbn [List.filter].
  destruct (get_alert d) eqn:Ha, (date_of now d =? date)%Z eqn:Hd;
    cbn [List.filter]; rewrite ?Ha, ?Hd, IH; reflexivity.
Qed.

Section WeeklyFacts.

Context `{Summation}.
Variables Store Exception : Type.
Variable find : string -> Filter -> Store -> Exception + list Reading.

(** X10: when the query honours its filter, the seven entries count the
    queried readings dated before the UTC date of [now], and no other:
    a reading of today, or of a later date, is in the summary only. *)
Theorem weekly_analysis_misses_today (now : Z) (vehicle_id : option string) (db : Store) :
  let readings := query_readings Store Exception find now vehicle_id db in
  let report := weekly_analysis Store Exception find now vehicle_id db in
  Forall (within_filter now) readings ->
  list_sum (map trips (by_day report))
  = length (List.filter (fun d => (date_of now d <? Calendar.utc_date now)%Z) readings)
  /\ total_trips (summary report) = length readings.
Proof.
  cbn zeta. intros Hall. split; [|reflexivity].
  unfold weekly_analysis. rewrite by_day_analyse, map_map. cbn [trips day_report].
  rewrite trips_in_series. f_equal. apply List.filter_ext_in.
  intros d Hd. rewrite Forall_forall in Hall.
  destruct (Hall d (proj2 (list_elem_of_In _ _) Hd)) as [ts [Hts Hle]].
  unfold in_series, date_of. rewrite Hts. cbn [default].
  apply utc_date_monotone in Hle. rewrite utc_date_week_before in *.
  destruct (Z.leb_spec (Calendar.utc_date now - 7) (Calendar.utc_date ts));
    destruct (Z.leb_spec (Calendar.utc_date ts) (Calendar.utc_date now - 7 + 6));
    destruct (Z.ltb_spec (Calendar.utc_date ts) (Calendar.utc_date now)); cbn; lia.
Qed.

(** X11: the entries never count more than the summary: their trips add
    up to at most [total_trips] and their alerts to at most [alerts];
    alerts never exceed trips, in the summary and in each entry. *)
Theorem weekly_analysis_counts (now : Z) (vehicle_id : option string) (db : Store) :
  let report := weekly_analysis Store Exception find now vehicle_id db in
  (list_sum (map trips (by_day report)) <= total_trips (summary report))%nat
  /\ (list_sum (map day_alerts (by_day report)) <= alerts (summary report))%nat
  /\ (alerts (summary report) <= total_trips (summary report))%nat
  /\ Forall (fun entry => (day_alerts entry <= trips entry)%nat) (by_day report).
Proof.
  cbn zeta. unfold weekly_analysis.
  set (readings := query_readings Store Exception find now vehicle_id db).
  rewrite by_day_analyse, !map_map. cbn [trips day_alerts day_report].
  unfold analyse. cbn [summary total_trips alerts].
  split; [|split; [|split]].
  - rewrite trips_in_series. apply List.filter_length_le.
  - erewrite map_ext; [|intros i; rewrite <- on_date_alerts; reflexivity].
    rewrite trips_in_series. apply List.filter_length_le.
  - apply List.filter_length_le.
  - apply Forall_forall. intros entry Hin.
    apply list_elem_of_In, in_map_iff in Hin. destruct Hin as [i [<- _]].
    cbn [trips day_alerts day_report]. apply List.filter_length_le.
Qed.

End WeeklyFacts.

(** ** The order of the readings *)

Lemma filter_Permutation {A : Type} (p : A -> bool) (l1 l2 : list A) :
  Permutation l1 l2 -> Permutation (List.filter p l1) (List.filter p l2).
Proof.
  induction 1 as [|x l1 l2 _ IH|x y l|l1 l2 l3 _ IH1 _ IH2]; cbn [List.filter].
  - constructor.
  - destruct (p x); [constructor|]; exact IH.
  - destruct (p x), (p y); try reflexivity. constructor.
  - etransitivity; eassumption.
Qed.

Lemma filter_Permutation_length {A : Type} (p : A -> bool) (l1 l2 : list A) :
  Permutation l1 l2 -> length (List.filter p l1) = length (List.filter p l2).
Proof. intros Hperm. apply Permutation_length, filter_Permutation, Hperm. Qed.

(** X12: the counts of the report do not depend on the order in which the
    query returns the readings: trips and alerts, in the summary and in
    each day, are the same for any two orders (the sums, being float
    additions, may differ). *)
Theorem analyse_counts_order `{Summation} (now : Z) (readings1 readings2 : list Reading) :
  Permutation readings1 readings2 ->
  let r1 := analyse now readings1 in
  let r2 := analyse now readings2 in
  total_trips (summary r1) = total_trips (summary r2)
  /\ alerts (summary r1) = alerts (summary r2)
  /\ map day (by_day r1) = map day (by_day r2)
  /\ map trips (by_day r1) = map trips (by_day r2)
  /\ map day_alerts (by_day r1) = map day_alerts (by_day r2).
Proof.
  intros Hperm. cbn zeta. rewrite !by_day_analyse, !map_map.
  cbn [day trips day_alerts day_report]. unfold analyse. cbn [summary total_trips alerts].
  split; [apply Permutation_length, Hperm|].
  split; [apply filter_Permutation_length, Hperm|].
  split; [reflexivity|].
  split; apply map_ext; intros i.
  - apply filter_Permutation_length, Hperm.
  - apply filter_Permutation_length. unfold on_date. apply filter_Permutation, Hperm.
Qed.

(** ** Witnesses on the in-memory store *)

(** One trip today and one two days ago, at 2026-11-04T01:00:00Z. *)
Lemma weekly_analysis_misses_today_witness :
  let now := 1793754000000000%Z in
  let store :=
    [ mkReading (Some "car"%string) (Some 14.0) (Some 2.31) (Some false) (Some now);
      mkReading (Some "car"%string) (Some 120.0) (Some 23.1) (Some true)
        (Some (now - 2 * Calendar.DAY)%Z) ] in
  let readings := query_readings (list Reading) Empty_set memory_find now None store in
  let report := weekly_analysis (list Reading) Empty_set memory_find now None store in
  list_sum (map trips (by_day report))
  = length (List.filter (fun d => (date_of now d <? Calendar.utc_date now)%Z) readings)
  /\ total_trips (summary report) = length readings.
Proof.
  apply (weekly_analysis_misses_today (list Reading) Empty_set memory_find).
  repeat constructor; eexists; (split; [reflexivity | vm_compute; discriminate]).
Defined.

Lemma analyse_counts_order_witness :
  let a := mkReading (Some "car"%string) (Some 14.0) (Some 2.31) (Some false)
             (Some 1793754000000000%Z) in
  let b := mkReading (Some "van"%string) (Some 120.0) (Some 23.1) (Some true)
             (Some 1793581200000000%Z) in
  let r1 := analyse 1793754000000000 [a; b] in
  let r2 := analyse 1793754000000000 [b; a] in
  total_trips (summary r1) = total_trips (summary r2)
  /\ alerts (summary r1) = alerts (summary r2)
  /\ map day (by_day r1) = map day (by_day r2)
  /\ map trips (by_day r1) = map trips (by_day r2)
  /\ map day_alerts (by_day r1) = map day_alerts (by_day r2).
Proof. apply analyse_counts_order. constructor. Defined.

(** ** The [/test] route *)

(** X13: the two fields [database_url] and [database_name] of the answer
    say only whether the environment variables are set and not empty: the
    values written while the handle is inspected, the handle's name among
    them, are overwritten, so the answer never carries the name. *)
Theorem test_database_env_fields (db : option Database) (getenv : string -> option string) :
  let response := test_database db getenv in
  database_url response
  = Some (if env_set (getenv "DATABASE_URL") then "✅ Set" else "❌ Not Set")%string
  /\ database_name response
     = Some (if env_set (getenv "DATABASE_NAME") then "✅ Set" else "❌ Not Set")%string
  /\ backend response = "✅ Running"%string.
Proof.
  cbn zeta. unfold test_database.
  destruct db as [[[e|name] [e'|names]]|]; repeat split.
Qed.

Lemma take_chars_count (n : nat) (s : string) : (Utf8.char_count (Utf8.take_chars n s) <= n)%nat.
Proof.
  revert n. induction s as [|c s IH]; intros n; cbn [Utf8.take_chars Utf8.char_count]; [lia|].
  destruct (Utf8.is_continuation c) eqn:Hc.
  - cbn [Utf8.char_count]. rewrite Hc. apply IH.
  - destruct n as [|n]; cbn [Utf8.char_count]; [lia|]. rewrite Hc. specialize (IH n). lia.
Qed.

Lemma take_chars_prefix (n : nat) (s : string) : String.prefix (Utf8.take_chars n s) s = true.
Proof.
  revert n. induction s as [|c s IH]; intros n; cbn [Utf8.take_chars]; [reflexivity|].
  destruct (Utf8.is_continuation c); [|destruct n as [|n]; [reflexivity|]];
    cbn [String.prefix]; destruct (ascii_dec c c); try contradiction; apply IH.
Qed.

Lemma take_chars_all (n : nat) (s : string) :
  (Utf8.char_count s <= n)%nat -> Utf8.take_chars n s = s.
Proof.
  revert n. induction s as [|c s IH]; intros n; cbn [Utf8.take_chars Utf8.char_count];
    [reflexivity|].
  destruct (Utf8.is_continuation c); intros Hle.
  - rewrite IH by exact Hle. reflexivity.
  - destruct n as [|n]; [lia|]. rewrite IH by lia. reflexivity.
Qed.

(** X14: the answer lists at most ten collections, the first ten the
    handle names; it says "Connected" exactly when there is a handle whose
    name can be read, and "Connected & Working" exactly when moreover the
    collections can be listed. *)
Theorem test_database_status (db : option Database) (getenv : string -> option string) :
  let response := test_database db getenv in
  (length (collections response) <= 10)%nat
  /\ (connection_status response = "Connected"%string
      <-> exists d name, db = Some d /\ db_name d = inr name)
  /\ (database response = "✅ Connected & Working"%string
      <-> exists d name names,
            db = Some d /\ db_name d = inr name /\ list_collection_names d = inr names)
  /\ (forall d name names,
        db = Some d -> db_name d = inr name -> list_collection_names d = inr names ->
        collections response = take 10 names)
  /\ (collections response <> [] -> database response = "✅ Connected & Working"%string).
Proof.
  cbn zeta. unfold test_database.
  destruct db as [[[e|name] [e'|names]]|];
    cbn [collections connection_status database set_database set_database_url
         set_database_name set_connection_status set_collections db_name
         list_collection_names length];
    (split; [rewrite ?length_take; lia|]);
    (split; [split; [try discriminate; eauto | intros (d & n & Hd & Hn); try discriminate;
                     injection Hd as <-; cbn in Hn; try discriminate; reflexivity]|]);
    (split; [split; [cbv [String.append]; try discriminate; eauto 6
                    | intros (d & n & ns & Hd & Hn & Hns); try discriminate;
                      injection Hd as <-; cbn in Hn, Hns; try discriminate; reflexivity]|]);
    (split; [intros d n ns Hd Hn Hns; try discriminate; injection Hd as <-;
             cbn in Hn, Hns; try discriminate; congruence|]);
    intros Hne; try reflexivity; contradiction.
Qed.

(** The text is what [take_chars] keeps followed by a rest that begins at
    a character, so no character is cut. *)
Lemma take_chars_split (n : nat) (s : string) :
  exists rest, s = String.append (Utf8.take_chars n s) rest /\ Utf8.at_boundary rest.
Proof.
  revert n. induction s as [|c s IH]; intros n; cbn [Utf8.take_chars].
  - exists EmptyString. split; [reflexivity | exact I].
  - destruct (Utf8.is_continuation c) eqn:Hc.
    + destruct (IH n) as [rest [Hs Hrest]]. exists rest.
      rewrite CalendarFacts.append_cons, <- Hs. split; [reflexivity | exact Hrest].
    + destruct n as [|n].
      * exists (String c s). split; [reflexivity | exact Hc].
      * destruct (IH n) as [rest [Hs Hrest]]. exists rest.
        rewrite CalendarFacts.append_cons, <- Hs. split; [reflexivity | exact Hrest].
Qed.

(** [take_chars n] keeps [n] characters, or all there are. *)
Lemma take_chars_count_min (n : nat) (s : string) :
  Utf8.char_count (Utf8.take_chars n s) = Nat.min n (Utf8.char_count s).
Proof.
  revert n. induction s as [|c s IH]; intros n; cbn [Utf8.take_chars Utf8.char_count]; [lia|].
  destruct (Utf8.is_continuation c) eqn:Hc.
  - cbn [Utf8.char_count]. rewrite Hc, IH. lia.
  - destruct n as [|n]; cbn [Utf8.char_count]; [lia|]. rewrite Hc, IH. lia.
Qed.

(** X15: when the collections cannot be listed, the answer quotes after
    "Connected but Error: " the first 50 characters of the exception's
    text: the text is the quoted part followed by a rest that begins at a
    character, and the quoted part has 50 characters, or all the text has
    when it has no more, in which case it is the whole text. *)
Theorem test_database_error_text (d : Database) (name : option string) (e : PyException)
    (getenv : string -> option string) :
  db_name d = inr name ->
  list_collection_names d = inl e ->
  exists quoted rest,
    database (test_database (Some d) getenv)
    = String.append "⚠️  Connected but Error: " quoted
    /\ message e = String.append quoted rest
    /\ Utf8.at_boundary rest
    /\ Utf8.char_count quoted = Nat.min 50 (Utf8.char_count (message e))
    /\ (Utf8.char_count quoted <= 50)%nat
    /\ String.prefix quoted (message e) = true
    /\ ((Utf8.char_count (message e) <= 50)%nat -> quoted = message e).
Proof.
  intros Hname Hlist. unfold test_database. rewrite Hname, Hlist.
  destruct (take_chars_split 50 (message e)) as [rest [Hsplit Hrest]].
  exists (Utf8.take_chars 50 (message e)), rest.
  split; [reflexivity|]. split; [exact Hsplit|]. split; [exact Hrest|].
  split; [apply take_chars_count_min|]. split; [apply take_chars_count|].
  split; [apply take_chars_prefix | apply take_chars_all].
Qed.

(** A text of 87 characters, one of them of three bytes past the cut. *)
Lemma test_database_error_text_witness :
  let text :=
    "could not reach the database server at mongodb.example.org:27017 — timed out after 30 s"%string in
  let d := mkDatabase (inr (Some "ecodrive"%string)) (inl (mkPyException text)) in
  exists quoted rest,
    database (test_database (Some d) (fun _ => None))
    = String.append "⚠️  Connected but Error: " quoted
    /\ text = String.append quoted rest
    /\ Utf8.at_boundary rest
    /\ Utf8.char_count quoted = Nat.min 50 (Utf8.char_count text)
    /\ (Utf8.char_count quoted <= 50)%nat
    /\ String.prefix quoted text = true
    /\ ((Utf8.char_count text <= 50)%nat -> quoted = text).
Proof.
  cbn zeta.
  apply (test_database_error_text _ (Some "ecodrive"%string)
           (mkPyException
              "could not reach the database server at mongodb.example.org:27017 — timed out after 30 s"));
    reflexivity.
Defined.

(** The same text and one with characters of several bytes before the
    cut: 50 characters are quoted, whatever their bytes. *)
Example test_database_error_text_long :
  database
    (test_database
       (Some (mkDatabase (inr None)
                (inl (mkPyException
                        "could not reach the database server at mongodb.example.org:27017 — timed out after 30 s"))))
       (fun _ => None))
  = "⚠️  Connected but Error: could not reach the database server at mongodb.exa"%string
  /\ Utf8.take_chars 50 "ééééééééééééééééééééééééééééééééééééééééééééééééééééééé"
     = "éééééééééééééééééééééééééééééééééééééééééééééééééé"%string
  /\ Utf8.char_count "ééééééééééééééééééééééééééééééééééééééééééééééééééééééé" = 55%nat.
Proof. vm_compute. repeat split. Qed.
